(** * Adafruit_SSD1306 (ESP-IDF I2C port): frame buffer, coordinate transform
      and bus traffic of the driver in [Adafruit_SSD1306.cpp].

    The driver object, the heap and the I2C transport are embedded as one
    explicit machine state.  Every method of the class is a computation in a
    small state-and-failure monad over that machine: [None] stands for
    undefined behaviour of the C++ code (a NULL or out-of-range access to the
    pixel buffer or to a bitmap table). *)

From Stdlib Require Import ZArith Lia Bool.
From stdpp Require Import base numbers option list.

Local Open Scope Z_scope.

(** ** Fixed-width integers of the C++ code, as [Z] with explicit wrap-around *)

Definition to_uint8 (z : Z) : Z := z mod 256.
Definition to_uint16 (z : Z) : Z := z mod 65536.
Definition to_int16 (z : Z) : Z := (z + 32768) mod 65536 - 32768.

Definition is_uint8 (z : Z) : Prop := 0 ≤ z < 256.
Definition is_int16 (z : Z) : Prop := -32768 ≤ z < 32768.

(** The macro [ssd1306_swap(a, b)]:
    [(((a) ^= (b)), ((b) ^= (a)), ((a) ^= (b)))]. *)
Definition ssd1306_swap (a b : Z) : Z * Z :=
  let a := Z.lxor a b in
  let b := Z.lxor b a in
  let a := Z.lxor a b in
  (a, b).

(** ** Constants of [Adafruit_SSD1306.h] and of the ESP-IDF I2C driver *)

(** Modelled from the spec: the header [Adafruit_SSD1306.h] is not part of the
    sources at hand.  The colours follow the comment of [invertDisplay]
    ("SSD1306_BLACK (value 0)", "SSD1306_WHITE (value 1)"); the command
    opcodes follow the comments of the init tables in [begin] and the SSD1306
    data sheet; the stream selectors are the data sheet's control bytes. *)
Definition SSD1306_BLACK : Z := 0.
Definition SSD1306_WHITE : Z := 1.
Definition SSD1306_INVERSE : Z := 2.

Definition SSD1306_MEMORYMODE : Z := 0x20.
Definition SSD1306_COLUMNADDR : Z := 0x21.
Definition SSD1306_PAGEADDR : Z := 0x22.
Definition SSD1306_SETCONTRAST : Z := 0x81.
Definition SSD1306_CHARGEPUMP : Z := 0x8D.
Definition SSD1306_SEGREMAP : Z := 0xA0.
Definition SSD1306_DISPLAYALLON_RESUME : Z := 0xA4.
Definition SSD1306_NORMALDISPLAY : Z := 0xA6.
Definition SSD1306_INVERTDISPLAY : Z := 0xA7.
Definition SSD1306_SETMULTIPLEX : Z := 0xA8.
Definition SSD1306_DISPLAYOFF : Z := 0xAE.
Definition SSD1306_DISPLAYON : Z := 0xAF.
Definition SSD1306_COMSCANDEC : Z := 0xC8.
Definition SSD1306_SETDISPLAYOFFSET : Z := 0xD3.
Definition SSD1306_SETDISPLAYCLOCKDIV : Z := 0xD5.
Definition SSD1306_SETPRECHARGE : Z := 0xD9.
Definition SSD1306_SETCOMPINS : Z := 0xDA.
Definition SSD1306_SETVCOMDETECT : Z := 0xDB.
Definition SSD1306_SETSTARTLINE : Z := 0x40.
Definition SSD1306_RIGHT_HORIZONTAL_SCROLL : Z := 0x26.
Definition SSD1306_LEFT_HORIZONTAL_SCROLL : Z := 0x27.
Definition SSD1306_VERTICAL_AND_RIGHT_HORIZONTAL_SCROLL : Z := 0x29.
Definition SSD1306_VERTICAL_AND_LEFT_HORIZONTAL_SCROLL : Z := 0x2A.
Definition SSD1306_DEACTIVATE_SCROLL : Z := 0x2E.
Definition SSD1306_ACTIVATE_SCROLL : Z := 0x2F.
Definition SSD1306_SET_VERTICAL_SCROLL_AREA : Z := 0xA3.

Definition SSD1306_I2C_ADDRESS : Z := 0x3C.
Definition SSD1306_CMD_STREAM : Z := 0x00.
Definition SSD1306_DATA_STREAM : Z := 0x40.
Definition I2C_MASTER_WRITE : Z := 0.

(** ** The machine: driver object, heap oracle, I2C bus *)

(** One operation queued on an I2C command link. *)
Inductive i2c_op : Type :=
  | I2C_start
  | I2C_write_byte (data : Z) (ack_en : bool)
  | I2C_stop.

(** A command link handle: [None] is the NULL handle. *)
Definition i2c_cmd_handle_t : Type := option (list i2c_op).

(** A transaction handed to [i2c_master_cmd_begin]: the port and the queued
    operations. *)
Definition transaction : Type := Z * list i2c_op.

(** The object: the fields inherited from [Adafruit_GFX] ([WIDTH], [HEIGHT],
    [_width], [_height], [rotation]) and the driver's own ([buffer],
    [contrast], [i2c]).  A NULL [buffer] is [None]. *)
Record SSD1306 : Type := mkSSD1306 {
  WIDTH : Z;
  HEIGHT : Z;
  _width : Z;
  _height : Z;
  rotation : Z;
  buffer : option (list Z);
  contrast : Z;
  i2c : Z
}.

(** The environment of the object.  [heap_ok n] tells whether the [n]-th heap
    request ([malloc] or [i2c_cmd_link_create]) is granted, [heap_junk] is the
    indeterminate content of fresh memory, [bus] is the list of transactions
    executed so far, oldest first. *)
Record Env : Type := mkEnv {
  heap_ok : nat → bool;
  heap_junk : nat → Z;
  heap_calls : nat;
  bus : list transaction
}.

Record Machine : Type := mkMachine {
  dev : SSD1306;
  env : Env
}.

Definition with_buffer (d : SSD1306) (b : option (list Z)) : SSD1306 :=
  mkSSD1306 (WIDTH d) (HEIGHT d) (_width d) (_height d) (rotation d) b
            (contrast d) (i2c d).

Definition with_contrast (d : SSD1306) (c : Z) : SSD1306 :=
  mkSSD1306 (WIDTH d) (HEIGHT d) (_width d) (_height d) (rotation d)
            (buffer d) c (i2c d).

(** ** The monad of method bodies *)

Definition M (A : Type) : Type := Machine → option (A * Machine).

#[global] Instance M_ret : MRet M := λ A x m, Some (x, m).
#[global] Instance M_bind : MBind M := λ A B f c m,
  match c m with
  | Some (a, m') => f a m'
  | None => None
  end.

Definition undefined {A} : M A := λ _, None.
Definition get_dev : M SSD1306 := λ m, Some (dev m, m).
Definition put_dev (d : SSD1306) : M unit := λ m, Some (tt, mkMachine d (env m)).
Definition get_env : M Env := λ m, Some (env m, m).
Definition put_env (e : Env) : M unit := λ m, Some (tt, mkMachine (dev m) e).

(** ** Adafruit_GFX: the accessors and [setRotation] the driver relies on *)

Definition width (d : SSD1306) : Z := _width d.
Definition height (d : SSD1306) : Z := _height d.
Definition getRotation (d : SSD1306) : Z := rotation d.

(** Modelled from the spec: [Adafruit_GFX::setRotation] is not under the
    sources; the logical [width()]/[height()] accessors swap for rotations 1
    and 3, the stored geometry never changes. *)
Definition setRotation (r : Z) : M unit :=
  d ← get_dev;
  let r := Z.land r 3 in
  let '(w, h) := match r with
                 | 1 | 3 => (HEIGHT d, WIDTH d)
                 | _ => (WIDTH d, HEIGHT d)
                 end in
  put_dev (mkSSD1306 (WIDTH d) (HEIGHT d) w h r (buffer d) (contrast d) (i2c d)).

(** Constructor [Adafruit_SSD1306(uint8_t w, uint8_t h, i2c_port_t port)]:
    [Adafruit_GFX(w, h)], [buffer(NULL)], [i2c = port].  The field [contrast]
    is left uninitialised; [junk] is its indeterminate value. *)
Definition Adafruit_SSD1306 (w h port junk : Z) : SSD1306 :=
  let w := to_uint8 w in
  let h := to_uint8 h in
  mkSSD1306 w h w h 0 None (to_uint8 junk) port.

(** ** Pixel buffer accesses *)

(** Size in bytes of the pixel buffer: [WIDTH * ((HEIGHT + 7) / 8)]. *)
Definition buffer_size (d : SSD1306) : Z := WIDTH d * ((HEIGHT d + 7) `quot` 8).

Definition array_index {A} (a : option (list A)) (i : Z) : option A :=
  match a with
  | Some l => if 0 <=? i then l !! Z.to_nat i else None
  | None => None
  end.

(** [buffer[i]] as an rvalue. *)
Definition buffer_load (i : Z) : M Z := λ m,
  match array_index (buffer (dev m)) i with
  | Some b => Some (b, m)
  | None => None
  end.

(** [buffer[i] = v]. *)
Definition buffer_store (i v : Z) : M unit := λ m,
  match buffer (dev m), array_index (buffer (dev m)) i with
  | Some buf, Some _ =>
      Some (tt, mkMachine (with_buffer (dev m) (Some (<[Z.to_nat i := v]> buf)))
                          (env m))
  | _, _ => None
  end.

(** ** Drawing functions *)

(** The statement [switch (getRotation()) { case 1: ... case 2: ... case 3:
    ... }] that [drawPixel] and [getPixel] both run on their in-bounds
    coordinates.  The results are assigned to the [int16_t] parameters. *)
Definition rotate_coords (d : SSD1306) (x y : Z) : Z * Z :=
  match getRotation d with
  | 1 => let '(x, y) := ssd1306_swap x y in
         (to_int16 (WIDTH d - x - 1), y)
  | 2 => (to_int16 (WIDTH d - x - 1), to_int16 (HEIGHT d - y - 1))
  | 3 => let '(x, y) := ssd1306_swap x y in
         (x, to_int16 (HEIGHT d - y - 1))
  | _ => (x, y)
  end.

Definition drawPixel (x y color : Z) : M unit :=
  d ← get_dev;
  if (0 <=? x) && (x <? width d) && (0 <=? y) && (y <? height d) then
    let '(x, y) := rotate_coords d x y in
    let i := x + (y `quot` 8) * WIDTH d in
    let bit := 1 ≪ Z.land y 7 in
    if color =? SSD1306_WHITE then
      b ← buffer_load i; buffer_store i (to_uint8 (Z.lor b bit))
    else if color =? SSD1306_BLACK then
      b ← buffer_load i; buffer_store i (to_uint8 (Z.land b (Z.lnot bit)))
    else if color =? SSD1306_INVERSE then
      b ← buffer_load i; buffer_store i (to_uint8 (Z.lxor b bit))
    else mret tt
  else mret tt.

(** [memset(buffer, 0, WIDTH * ((HEIGHT + 7) / 8))]. *)
Definition clearDisplay : M unit := λ m,
  let n := Z.to_nat (buffer_size (dev m)) in
  match buffer (dev m) with
  | Some buf =>
      if decide (n ≤ length buf)%nat then
        Some (tt, mkMachine (with_buffer (dev m)
                               (Some (replicate n 0 ++ drop n buf))) (env m))
      else None
  | None => None
  end.

Definition getPixel (x y : Z) : M bool :=
  d ← get_dev;
  if (0 <=? x) && (x <? width d) && (0 <=? y) && (y <? height d) then
    let '(x, y) := rotate_coords d x y in
    b ← buffer_load (x + (y `quot` 8) * WIDTH d);
    mret (negb (Z.land b (1 ≪ Z.land y 7) =? 0))
  else mret false.

Definition getBuffer : M (option (list Z)) := d ← get_dev; mret (buffer d).

(** ** The ESP-IDF I2C master driver, as far as the driver uses it *)

(** One heap request: granted or not, as the oracle says. *)
Definition heap_request : M bool := λ m,
  let e := env m in
  Some (heap_ok e (heap_calls e),
        mkMachine (dev m)
          (mkEnv (heap_ok e) (heap_junk e) (S (heap_calls e)) (bus e))).

(** [malloc(n)]: NULL, or [n] bytes of indeterminate content. *)
Definition malloc (n : Z) : M (option (list Z)) :=
  e ← get_env;
  ok ← heap_request;
  if ok : bool then
    mret (Some ((λ k, to_uint8 (heap_junk e k)) <$> seq 0 (Z.to_nat n)))
  else mret None.

(** [i2c_cmd_link_create()]: NULL when the heap is exhausted. *)
Definition i2c_cmd_link_create : M i2c_cmd_handle_t :=
  ok ← heap_request;
  mret (if ok : bool then Some [] else None).

(** The queueing calls do nothing on a NULL handle (they return
    [ESP_ERR_INVALID_ARG], which the driver ignores). *)
Definition i2c_queue (cmd : i2c_cmd_handle_t) (op : i2c_op) : i2c_cmd_handle_t :=
  match cmd with
  | Some ops => Some (ops ++ [op])
  | None => None
  end.

Definition i2c_master_start (cmd : i2c_cmd_handle_t) : i2c_cmd_handle_t :=
  i2c_queue cmd I2C_start.
Definition i2c_master_write_byte (cmd : i2c_cmd_handle_t) (data : Z)
    (ack_en : bool) : i2c_cmd_handle_t :=
  i2c_queue cmd (I2C_write_byte (to_uint8 data) ack_en).
Definition i2c_master_stop (cmd : i2c_cmd_handle_t) : i2c_cmd_handle_t :=
  i2c_queue cmd I2C_stop.

(** [i2c_master_cmd_begin(port, cmd, ticks)]: the queued operations go out on
    the bus as one transaction.  Its error code only reaches
    [ESP_ERROR_CHECK_WITHOUT_ABORT], which logs and goes on. *)
Definition i2c_master_cmd_begin (port : Z) (cmd : i2c_cmd_handle_t) : M unit :=
  match cmd with
  | Some ops =>
      e ← get_env;
      put_env (mkEnv (heap_ok e) (heap_junk e) (heap_calls e)
                     (bus e ++ [(port, ops)]))
  | None => mret tt
  end.

Definition i2c_cmd_link_delete (cmd : i2c_cmd_handle_t) : M unit := mret tt.

(** ** Commands *)

Definition i2c_address_byte : Z :=
  Z.lor (SSD1306_I2C_ADDRESS ≪ 1) I2C_MASTER_WRITE.

Definition ssd1306_command1 (c : Z) : M unit :=
  let c := to_uint8 c in
  cmd ← i2c_cmd_link_create;
  if cmd is Some _ then
    let cmd := i2c_master_start cmd in
    let cmd := i2c_master_write_byte cmd i2c_address_byte true in
    let cmd := i2c_master_write_byte cmd SSD1306_CMD_STREAM true in
    let cmd := i2c_master_write_byte cmd c true in
    let cmd := i2c_master_stop cmd in
    d ← get_dev;
    i2c_master_cmd_begin (i2c d) cmd;;
    i2c_cmd_link_delete cmd
  else mret tt.

(** [while (n--) { i2c_master_write_byte(cmd, *c++, true); }]: reading past
    the end of the table is undefined. *)
Fixpoint commandList_loop (n : nat) (c : list Z) (cmd : i2c_cmd_handle_t)
    : M i2c_cmd_handle_t :=
  match n with
  | O => mret cmd
  | S n' =>
      match c with
      | b :: c' => commandList_loop n' c' (i2c_master_write_byte cmd b true)
      | [] => undefined
      end
  end.

Definition ssd1306_commandList (c : list Z) (n : Z) : M unit :=
  let n := to_uint8 n in
  cmd ← i2c_cmd_link_create;
  if cmd is Some _ then
    let cmd := i2c_master_start cmd in
    let cmd := i2c_master_write_byte cmd i2c_address_byte true in
    let cmd := i2c_master_write_byte cmd SSD1306_CMD_STREAM true in
    cmd ← commandList_loop (Z.to_nat n) c cmd;
    let cmd := i2c_master_stop cmd in
    d ← get_dev;
    i2c_master_cmd_begin (i2c d) cmd;;
    i2c_cmd_link_delete cmd
  else mret tt.

Definition sizeof (table : list Z) : Z := Z.of_nat (length table).

Definition ssd1306_command (c : Z) : M unit := ssd1306_command1 c.

(** ** Refresh *)

Definition dlist1 : list Z :=
  [SSD1306_PAGEADDR; 0; 0xFF; SSD1306_COLUMNADDR; 0].

(** [while (count--) { i2c_master_write_byte(cmd, *ptr++, true); }] with
    [ptr] running from [buffer]. *)
Fixpoint display_loop (count : nat) (ptr : Z) (cmd : i2c_cmd_handle_t)
    : M i2c_cmd_handle_t :=
  match count with
  | O => mret cmd
  | S count' =>
      b ← buffer_load ptr;
      display_loop count' (ptr + 1) (i2c_master_write_byte cmd b true)
  end.

Definition display : M unit :=
  ssd1306_commandList dlist1 (sizeof dlist1);;
  d ← get_dev;
  ssd1306_command1 (WIDTH d - 1);;
  let count := to_uint16 (buffer_size d) in
  let ptr := 0 in
  cmd ← i2c_cmd_link_create;
  let cmd := i2c_master_start cmd in
  let cmd := i2c_master_write_byte cmd i2c_address_byte true in
  let cmd := i2c_master_write_byte cmd SSD1306_DATA_STREAM true in
  cmd ← display_loop (Z.to_nat count) ptr cmd;
  let cmd := i2c_master_stop cmd in
  i2c_master_cmd_begin (i2c d) cmd;;
  i2c_cmd_link_delete cmd.

(** ** Scrolling and other hardware settings *)

Definition startscrollright (start stop : Z) : M unit :=
  let scrollList1a := [SSD1306_RIGHT_HORIZONTAL_SCROLL; 0x00] in
  ssd1306_commandList scrollList1a (sizeof scrollList1a);;
  ssd1306_command1 start;;
  ssd1306_command1 0x00;;
  ssd1306_command1 stop;;
  let scrollList1b := [0x00; 0xFF; SSD1306_ACTIVATE_SCROLL] in
  ssd1306_commandList scrollList1b (sizeof scrollList1b).

Definition startscrollleft (start stop : Z) : M unit :=
  let scrollList2a := [SSD1306_LEFT_HORIZONTAL_SCROLL; 0x00] in
  ssd1306_commandList scrollList2a (sizeof scrollList2a);;
  ssd1306_command1 start;;
  ssd1306_command1 0x00;;
  ssd1306_command1 stop;;
  let scrollList2b := [0x00; 0xFF; SSD1306_ACTIVATE_SCROLL] in
  ssd1306_commandList scrollList2b (sizeof scrollList2b).

Definition startscrolldiagright (start stop : Z) : M unit :=
  let scrollList3a := [SSD1306_SET_VERTICAL_SCROLL_AREA; 0x00] in
  ssd1306_commandList scrollList3a (sizeof scrollList3a);;
  d ← get_dev;
  ssd1306_command1 (HEIGHT d);;
  let scrollList3b := [SSD1306_VERTICAL_AND_RIGHT_HORIZONTAL_SCROLL; 0x00] in
  ssd1306_commandList scrollList3b (sizeof scrollList3b);;
  ssd1306_command1 start;;
  ssd1306_command1 0x00;;
  ssd1306_command1 stop;;
  let scrollList3c := [0x01; SSD1306_ACTIVATE_SCROLL] in
  ssd1306_commandList scrollList3c (sizeof scrollList3c).

Definition startscrolldiagleft (start stop : Z) : M unit :=
  let scrollList4a := [SSD1306_SET_VERTICAL_SCROLL_AREA; 0x00] in
  ssd1306_commandList scrollList4a (sizeof scrollList4a);;
  d ← get_dev;
  ssd1306_command1 (HEIGHT d);;
  let scrollList4b := [SSD1306_VERTICAL_AND_LEFT_HORIZONTAL_SCROLL; 0x00] in
  ssd1306_commandList scrollList4b (sizeof scrollList4b);;
  ssd1306_command1 start;;
  ssd1306_command1 0x00;;
  ssd1306_command1 stop;;
  let scrollList4c := [0x01; SSD1306_ACTIVATE_SCROLL] in
  ssd1306_commandList scrollList4c (sizeof scrollList4c).

Definition stopscroll : M unit :=
  ssd1306_command1 SSD1306_DEACTIVATE_SCROLL.

Definition invertDisplay (i : bool) : M unit :=
  ssd1306_command1 (if i then SSD1306_INVERTDISPLAY else SSD1306_NORMALDISPLAY).

Definition dim (dim : bool) : M unit :=
  ssd1306_command1 SSD1306_SETCONTRAST;;
  d ← get_dev;
  ssd1306_command1 (if dim then 0 else contrast d).

(** ** Allocation and initialisation *)

(** A bitmap table of [splash.h] with its dimensions. *)
Record Bitmap : Type := mkBitmap {
  bm_width : Z;
  bm_height : Z;
  bm_data : list Z
}.

(** Modelled from the spec: [Adafruit_GFX::drawBitmap] is not under the
    sources.  It blits a fixed bitmap, one bit per pixel, rows padded to whole
    bytes, most significant bit first, and reaches the buffer through
    [drawPixel] only.  The inner loop over [i] for row [j]; [b] is the byte
    being shifted out. *)
Fixpoint drawBitmap_row (cols : list Z) (x y : Z) (bitmap : list Z)
    (byteWidth j color b : Z) : M Z :=
  match cols with
  | [] => mret b
  | i :: cols' =>
      b ← (if Z.land i 7 =? 0 then
             match array_index (Some bitmap) (j * byteWidth + i `quot` 8) with
             | Some v => mret v
             | None => undefined
             end
           else mret (to_uint8 (b ≪ 1)));
      (if Z.land b 0x80 =? 0 then mret tt
       else drawPixel (to_int16 (x + i)) y color);;
      drawBitmap_row cols' x y bitmap byteWidth j color b
  end.

(** The outer loop [for (j = 0; j < h; j++, y++)]. *)
Fixpoint drawBitmap_rows (rows : list Z) (x y : Z) (bitmap : list Z)
    (w byteWidth color b : Z) : M unit :=
  match rows with
  | [] => mret tt
  | j :: rows' =>
      b ← drawBitmap_row (seqZ 0 w) x y bitmap byteWidth j color b;
      drawBitmap_rows rows' x (to_int16 (y + 1)) bitmap w byteWidth color b
  end.

Definition drawBitmap (x y : Z) (bitmap : list Z) (w h color : Z) : M unit :=
  let x := to_int16 x in
  let y := to_int16 y in
  let byteWidth := to_int16 ((w + 7) `quot` 8) in
  drawBitmap_rows (seqZ 0 h) x y bitmap w byteWidth color 0.

Definition init1 : list Z :=
  [SSD1306_DISPLAYOFF; SSD1306_SETDISPLAYCLOCKDIV; 0x80; SSD1306_SETMULTIPLEX].
Definition init2 : list Z :=
  [SSD1306_SETDISPLAYOFFSET; 0x0; Z.lor SSD1306_SETSTARTLINE 0x0;
   SSD1306_CHARGEPUMP].
Definition init3 : list Z :=
  [SSD1306_MEMORYMODE; 0x00; Z.lor SSD1306_SEGREMAP 0x1; SSD1306_COMSCANDEC].
Definition init5 : list Z :=
  [SSD1306_SETVCOMDETECT; 0x40; SSD1306_DISPLAYALLON_RESUME;
   SSD1306_NORMALDISPLAY; SSD1306_DEACTIVATE_SCROLL; SSD1306_DISPLAYON].

Definition set_buffer (b : option (list Z)) : M unit :=
  d ← get_dev; put_dev (with_buffer d b).
Definition set_contrast (c : Z) : M unit :=
  d ← get_dev; put_dev (with_contrast d (to_uint8 c)).

(** The geometry lookup of [begin]: the local [comPins] and the value assigned
    to the field [contrast]. *)
Definition geometry_params (d : SSD1306) : Z * Z :=
  let comPins := 0x02 in
  let level := 0x8F in
  if (WIDTH d =? 128) && (HEIGHT d =? 32) then (0x02, 0x8F)
  else if (WIDTH d =? 128) && (HEIGHT d =? 64) then (0x12, 0xCF)
  else if (WIDTH d =? 96) && (HEIGHT d =? 16) then (0x2, 0xAF)
  else (comPins, level).

Section Begin.
(** The two splash bitmaps of [splash.h], which is not under the sources. *)
Variables splash1 splash2 : Bitmap.

(** The part of [begin] after the allocation check. *)
Definition begin_init : M bool :=
  clearDisplay;;
  d ← get_dev;
  (if 32 <? HEIGHT d then
     drawBitmap ((WIDTH d - bm_width splash1) `quot` 2)
                ((HEIGHT d - bm_height splash1) `quot` 2)
                (bm_data splash1) (bm_width splash1) (bm_height splash1) 1
   else
     drawBitmap ((WIDTH d - bm_width splash2) `quot` 2)
                ((HEIGHT d - bm_height splash2) `quot` 2)
                (bm_data splash2) (bm_width splash2) (bm_height splash2) 1);;
  ssd1306_commandList init1 (sizeof init1);;
  ssd1306_command1 (HEIGHT d - 1);;
  ssd1306_commandList init2 (sizeof init2);;
  ssd1306_command1 0x14;;
  ssd1306_commandList init3 (sizeof init3);;
  let '(comPins, level) := geometry_params d in
  set_contrast level;;
  ssd1306_command1 SSD1306_SETCOMPINS;;
  ssd1306_command1 comPins;;
  ssd1306_command1 SSD1306_SETCONTRAST;;
  d ← get_dev;
  ssd1306_command1 (contrast d);;
  ssd1306_command1 SSD1306_SETPRECHARGE;;
  ssd1306_command1 0xF1;;
  ssd1306_commandList init5 (sizeof init5);;
  mret true.

(** [if ((!buffer) && !(buffer = malloc(...))) return false;] and the rest. *)
Definition begin : M bool :=
  d ← get_dev;
  match buffer d with
  | None =>
      p ← malloc (buffer_size d);
      set_buffer p;;
      if p is None then mret false else begin_init
  | Some _ => begin_init
  end.
End Begin.

(** ** Well-formed objects *)

(** What the constructor and [setRotation] establish: byte-sized native
    dimensions, a rotation in 0..3, logical dimensions swapped for the odd
    rotations. *)
Definition gfx_ok (d : SSD1306) : Prop :=
  is_uint8 (WIDTH d) ∧ is_uint8 (HEIGHT d) ∧
  ((rotation d = 0 ∨ rotation d = 2) ∧
     _width d = WIDTH d ∧ _height d = HEIGHT d
   ∨ (rotation d = 1 ∨ rotation d = 3) ∧
     _width d = HEIGHT d ∧ _height d = WIDTH d).

(** What a successful [begin] establishes: the buffer is an array of
    [WIDTH * ((HEIGHT + 7) / 8)] bytes. *)
Definition buffer_ok (d : SSD1306) : Prop :=
  ∃ buf, buffer d = Some buf ∧
         length buf = Z.to_nat (buffer_size d) ∧
         Forall is_uint8 buf.

(** A bitmap table holds [bm_height] padded rows. *)
Definition bitmap_ok (bm : Bitmap) : Prop :=
  0 ≤ bm_width bm < 32761 ∧ 0 ≤ bm_height bm < 32768 ∧
  (bm_height bm * ((bm_width bm + 7) `quot` 8) ≤ Z.of_nat (length (bm_data bm))).

(** The heap grants every request. *)
Definition heap_never_fails (e : Env) : Prop := ∀ n, heap_ok e n = true.

(** ** The spec's description of the pixel layout *)

(** The transform of the spec, clause by clause ([W], [H] native). *)
Definition spec_transform (W H r x y : Z) : Z * Z :=
  match r with
  | 1 => let '(x, y) := (y, x) in (W - 1 - x, y)
  | 2 => (W - 1 - x, H - 1 - y)
  | 3 => let '(x, y) := (y, x) in (x, H - 1 - y)
  | _ => (x, y)
  end.

Definition spec_byte_index (W px py : Z) : Z := px + (py / 8) * W.
Definition spec_bit_position (py : Z) : Z := Z.land py 7.

(** The value of a pixel after drawing it with [color], given its old value. *)
Definition spec_paint (color : Z) (old : bool) : bool :=
  if color =? SSD1306_WHITE then true
  else if color =? SSD1306_BLACK then false
  else if color =? SSD1306_INVERSE then negb old
  else old.

(** A command-stream transaction carrying [payload], and a data-stream
    transaction, as they appear on the bus. *)
Definition frame_ops (selector : Z) (payload : list Z) : list i2c_op :=
  I2C_start :: I2C_write_byte i2c_address_byte true ::
  I2C_write_byte selector true ::
  ((λ b, I2C_write_byte b true) <$> payload) ++ [I2C_stop].

Definition cmd_transaction (port : Z) (payload : list Z) : transaction :=
  (port, frame_ops SSD1306_CMD_STREAM payload).
Definition data_transaction (port : Z) (payload : list Z) : transaction :=
  (port, frame_ops SSD1306_DATA_STREAM payload).

Definition is_cmd_transaction (t : transaction) : Prop :=
  ∃ port payload, t = cmd_transaction port payload.

(** The environment after [k] more heap requests and the transactions [ts]. *)
Definition env_after (e : Env) (k : nat) (ts : list transaction) : Env :=
  mkEnv (heap_ok e) (heap_junk e) (heap_calls e + k)%nat (bus e ++ ts).

(** ** Integer and bit lemmas *)

#[global] Arguments ssd1306_swap : simpl never.
#[global] Arguments to_uint8 : simpl never.
#[global] Arguments to_uint16 : simpl never.
#[global] Arguments to_int16 : simpl never.

Lemma to_uint8_id z : is_uint8 z → to_uint8 z = z.
Proof. unfold is_uint8, to_uint8. intros. apply Z.mod_small. lia. Qed.

Lemma to_uint8_range z : is_uint8 (to_uint8 z).
Proof. unfold is_uint8, to_uint8. apply Z.mod_pos_bound. lia. Qed.

Lemma to_int16_id z : is_int16 z → to_int16 z = z.
Proof.
  unfold is_int16, to_int16. intros.
  rewrite Z.mod_small; lia.
Qed.

Lemma to_int16_range z : is_int16 (to_int16 z).
Proof.
  unfold is_int16, to_int16.
  pose proof (Z.mod_pos_bound (z + 32768) 65536). lia.
Qed.

Lemma ssd1306_swap_spec a b : ssd1306_swap a b = (b, a).
Proof.
  unfold ssd1306_swap.
  f_equal; apply Z.bits_inj'; intros n _; rewrite !Z.lxor_spec;
    by destruct (Z.testbit a n), (Z.testbit b n).
Qed.

Lemma land_7_range y : 0 ≤ Z.land y 7 < 8.
Proof.
  change 7 with (Z.ones 3). rewrite Z.land_ones by lia.
  apply Z.mod_pos_bound. lia.
Qed.

Lemma mask_testbit k j : 0 ≤ k → Z.testbit (1 ≪ k) j = bool_decide (j = k).
Proof.
  intros Hk. rewrite Z.shiftl_1_l, Z.pow2_bits_eqb by lia.
  destruct (Z.eqb_spec k j); case_bool_decide; congruence.
Qed.

Lemma to_uint8_testbit z j :
  Z.testbit (to_uint8 z) j = (j <? 8) && Z.testbit z j.
Proof.
  unfold to_uint8. change 256 with (2 ^ 8).
  apply Z.testbit_mod_pow2. lia.
Qed.

Lemma uint8_testbit_high b j : is_uint8 b → 8 ≤ j → Z.testbit b j = false.
Proof.
  intros Hb Hj. rewrite <- (to_uint8_id b Hb), to_uint8_testbit.
  destruct (Z.ltb_spec j 8); [lia | done].
Qed.

Lemma pixel_test b k :
  0 ≤ k → negb (Z.land b (1 ≪ k) =? 0) = Z.testbit b k.
Proof.
  intros Hk. destruct (Z.testbit b k) eqn:Hb.
  - destruct (Z.eqb_spec (Z.land b (1 ≪ k)) 0) as [H0|]; [|done].
    assert (Z.testbit (Z.land b (1 ≪ k)) k = true) as Ht.
    { rewrite Z.land_spec, Hb, mask_testbit by done. by rewrite bool_decide_eq_true_2. }
    rewrite H0, Z.bits_0 in Ht. done.
  - destruct (Z.eqb_spec (Z.land b (1 ≪ k)) 0) as [|Hn]; [done|].
    exfalso. apply Hn. apply Z.bits_inj'. intros j Hj.
    rewrite Z.land_spec, mask_testbit, Z.bits_0 by done.
    case_bool_decide; subst; [by rewrite Hb | apply andb_false_r].
Qed.

(** The byte written back by [drawPixel] for [color], from the old byte [b]
    and the mask [bit]. *)
Definition paint_byte (color b bit : Z) : Z :=
  if color =? SSD1306_WHITE then to_uint8 (Z.lor b bit)
  else if color =? SSD1306_BLACK then to_uint8 (Z.land b (Z.lnot bit))
  else if color =? SSD1306_INVERSE then to_uint8 (Z.lxor b bit)
  else b.

Lemma paint_byte_range color b bit :
  is_uint8 b → is_uint8 (paint_byte color b bit).
Proof.
  intros Hb. unfold paint_byte.
  repeat case_match; auto using to_uint8_range.
Qed.

Lemma paint_byte_testbit color b k j :
  is_uint8 b → 0 ≤ k < 8 → 0 ≤ j →
  Z.testbit (paint_byte color b (1 ≪ k)) j =
    if bool_decide (j = k) then spec_paint color (Z.testbit b k)
    else Z.testbit b j.
Proof.
  intros Hb Hk Hj. unfold paint_byte, spec_paint.
  assert (8 ≤ j → Z.testbit b j = false) as Hhigh
    by (intros; by apply uint8_testbit_high).
  repeat case_match;
    rewrite ?to_uint8_testbit, ?Z.lor_spec, ?Z.land_spec, ?Z.lxor_spec,
            ?Z.lnot_spec, ?mask_testbit by lia;
    destruct (Z.ltb_spec j 8); repeat case_bool_decide; subst;
    rewrite ?Hhigh by lia; try lia;
    by destruct (Z.testbit b _).
Qed.

(** ** The coordinate transform *)

Lemma rotate_coords_spec d x y :
  gfx_ok d → 0 ≤ x < width d → 0 ≤ y < height d →
  rotate_coords d x y = spec_transform (WIDTH d) (HEIGHT d) (rotation d) x y.
Proof.
  unfold gfx_ok, is_uint8, width, height, rotate_coords, getRotation.
  intros (HW & HH & Hrot) Hx Hy.
  destruct Hrot as [([-> | ->] & Hw & Hh) | ([-> | ->] & Hw & Hh)];
    rewrite ?ssd1306_swap_spec; simpl; rewrite ?to_int16_id;
    unfold is_int16; try lia; f_equal; lia.
Qed.

Lemma spec_transform_in_panel d x y :
  gfx_ok d → 0 ≤ x < width d → 0 ≤ y < height d →
  let '(px, py) := spec_transform (WIDTH d) (HEIGHT d) (rotation d) x y in
  0 ≤ px < WIDTH d ∧ 0 ≤ py < HEIGHT d.
Proof.
  unfold gfx_ok, is_uint8, width, height.
  intros (HW & HH & Hrot) Hx Hy.
  destruct Hrot as [([-> | ->] & Hw & Hh) | ([-> | ->] & Hw & Hh)];
    simpl; lia.
Qed.

Lemma byte_index_in_buffer d px py :
  0 ≤ px < WIDTH d → 0 ≤ py < HEIGHT d →
  0 ≤ spec_byte_index (WIDTH d) px py < buffer_size d.
Proof.
  unfold spec_byte_index, buffer_size. intros Hx Hy.
  rewrite Z.quot_div_nonneg by lia.
  assert (0 ≤ py / 8 ≤ (HEIGHT d + 7) / 8 - 1) as Hq.
  { split; [apply Z.div_pos; lia|].
    replace (HEIGHT d + 7) with (HEIGHT d - 1 + 1 * 8) by lia.
    rewrite Z.div_add by lia.
    pose proof (Z.div_le_mono py (HEIGHT d - 1) 8). lia. }
  nia.
Qed.

Lemma with_buffer_id d buf : buffer d = Some buf → with_buffer d (Some buf) = d.
Proof. destruct d; simpl; intros ->; done. Qed.

Lemma machine_eta m : mkMachine (dev m) (env m) = m.
Proof. by destruct m. Qed.

(** What [drawPixel] and [getPixel] do at an in-bounds coordinate of a
    well-formed object, in terms of the spec's layout. *)
Lemma pixel_access m buf x y color :
  gfx_ok (dev m) →
  buffer (dev m) = Some buf →
  length buf = Z.to_nat (buffer_size (dev m)) →
  0 ≤ x < width (dev m) → 0 ≤ y < height (dev m) →
  ∃ px py b,
    spec_transform (WIDTH (dev m)) (HEIGHT (dev m)) (rotation (dev m)) x y
      = (px, py) ∧
    (0 ≤ px < WIDTH (dev m) ∧ 0 ≤ py < HEIGHT (dev m)) ∧
    buf !! Z.to_nat (spec_byte_index (WIDTH (dev m)) px py) = Some b ∧
    drawPixel x y color m =
      Some (tt, mkMachine
                  (with_buffer (dev m)
                     (Some (<[Z.to_nat (spec_byte_index (WIDTH (dev m)) px py)
                              := paint_byte color b (1 ≪ spec_bit_position py)]>
                            buf)))
                  (env m)) ∧
    getPixel x y m = Some (Z.testbit b (spec_bit_position py), m).
Proof.
  intros Hgfx Hbuf Hlen Hx Hy.
  pose proof (spec_transform_in_panel _ x y Hgfx Hx Hy) as Hin.
  pose proof (rotate_coords_spec _ x y Hgfx Hx Hy) as Hrot.
  destruct (spec_transform _ _ _ x y) as [px py] eqn:Htr.
  pose proof (byte_index_in_buffer (dev m) px py (proj1 Hin) (proj2 Hin)) as Hidx.
  destruct (lookup_lt_is_Some_2 buf (Z.to_nat (spec_byte_index (WIDTH (dev m)) px py)))
    as [b Hb]; [lia|].
  exists px, py, b. repeat split; try tauto.
  - unfold drawPixel, getPixel, mbind, M_bind, get_dev at 1.
    replace ((0 <=? x) && (x <? width (dev m)) && (0 <=? y) && (y <? height (dev m)))
      with true by (symmetry; rewrite !andb_true_iff; lia).
    rewrite Hrot.
    replace (px + py `quot` 8 * WIDTH (dev m))
      with (spec_byte_index (WIDTH (dev m)) px py)
      by (unfold spec_byte_index; rewrite Z.quot_div_nonneg; lia).
    assert (buffer_load (spec_byte_index (WIDTH (dev m)) px py) m = Some (b, m)) as Hload.
    { unfold buffer_load, array_index. rewrite Hbuf.
      destruct (Z.leb_spec 0 (spec_byte_index (WIDTH (dev m)) px py)); [|lia].
      by rewrite Hb. }
    assert (∀ v, buffer_store (spec_byte_index (WIDTH (dev m)) px py) v m =
              Some (tt, mkMachine (with_buffer (dev m)
                (Some (<[Z.to_nat (spec_byte_index (WIDTH (dev m)) px py) := v]> buf)))
                (env m))) as Hstore.
    { intros v. unfold buffer_store, array_index. rewrite Hbuf.
      destruct (Z.leb_spec 0 (spec_byte_index (WIDTH (dev m)) px py)); [|lia].
      by rewrite Hb. }
    unfold paint_byte, spec_bit_position.
    destruct (color =? SSD1306_WHITE);
      [|destruct (color =? SSD1306_BLACK);
        [|destruct (color =? SSD1306_INVERSE)]];
      rewrite ?Hload, ?Hstore; try done.
    unfold mret, M_ret. rewrite list_insert_id by done.
    by rewrite with_buffer_id, machine_eta.
  - unfold getPixel, mbind, M_bind, get_dev at 1.
    replace ((0 <=? x) && (x <? width (dev m)) && (0 <=? y) && (y <? height (dev m)))
      with true by (symmetry; rewrite !andb_true_iff; lia).
    rewrite Hrot.
    replace (px + py `quot` 8 * WIDTH (dev m))
      with (spec_byte_index (WIDTH (dev m)) px py)
      by (unfold spec_byte_index; rewrite Z.quot_div_nonneg; lia).
    unfold buffer_load, array_index. rewrite Hbuf.
    destruct (Z.leb_spec 0 (spec_byte_index (WIDTH (dev m)) px py)); [|lia].
    rewrite Hb. unfold mret, M_ret, spec_bit_position.
    rewrite pixel_test; [done | apply land_7_range].
Qed.

(** The constructor and [setRotation] establish [gfx_ok]. *)
Lemma constructor_gfx_ok w h port junk :
  gfx_ok (Adafruit_SSD1306 w h port junk).
Proof.
  unfold gfx_ok, Adafruit_SSD1306; simpl.
  split; [apply to_uint8_range|]. split; [apply to_uint8_range|].
  left. auto.
Qed.

Lemma setRotation_gfx_ok r m :
  gfx_ok (dev m) →
  ∃ d', setRotation r m = Some (tt, mkMachine d' (env m)) ∧
        gfx_ok d' ∧ rotation d' = Z.land r 3 ∧
        WIDTH d' = WIDTH (dev m) ∧ HEIGHT d' = HEIGHT (dev m) ∧
        buffer d' = buffer (dev m).
Proof.
  intros (HW & HH & _).
  assert (0 ≤ Z.land r 3 < 4) as Hq.
  { change 3 with (Z.ones 2). rewrite Z.land_ones by lia.
    apply Z.mod_pos_bound. lia. }
  unfold setRotation, mbind, M_bind, get_dev, put_dev, gfx_ok.
  remember (Z.land r 3) as q eqn:Eq. clear Eq.
  assert (q = 0 ∨ q = 1 ∨ q = 2 ∨ q = 3) as [-> | [-> | [-> | ->]]] by lia;
    simpl; eexists; (split; [reflexivity|]); simpl; intuition lia.
Qed.

(** ** Pixels *)

Lemma clearDisplay_ok m buf :
  buffer (dev m) = Some buf →
  length buf = Z.to_nat (buffer_size (dev m)) →
  clearDisplay m =
    Some (tt, mkMachine
                (with_buffer (dev m)
                   (Some (replicate (Z.to_nat (buffer_size (dev m))) 0)))
                (env m)).
Proof.
  intros Hbuf Hlen. unfold clearDisplay. rewrite Hbuf.
  rewrite decide_True by lia.
  by rewrite drop_ge, app_nil_r by lia.
Qed.

(** C1: at every in-bounds logical coordinate and for every rotation 0..3 of a
    well-formed object, drawing white (black) and reading the pixel back under
    the same rotation yields true (false), and no bit of the buffer other than
    the one at the transformed coordinate changes. *)
Theorem drawPixel_getPixel_roundtrip m r x y color :
  gfx_ok (dev m) → buffer_ok (dev m) →
  getRotation (dev m) = r → 0 ≤ r ≤ 3 →
  0 ≤ x < width (dev m) → 0 ≤ y < height (dev m) →
  color = SSD1306_WHITE ∨ color = SSD1306_BLACK →
  ∃ m' buf buf' px py,
    drawPixel x y color m = Some (tt, m') ∧
    getPixel x y m' = Some (bool_decide (color = SSD1306_WHITE), m') ∧
    rotate_coords (dev m) x y = (px, py) ∧
    buffer (dev m) = Some buf ∧ buffer (dev m') = Some buf' ∧
    length buf' = length buf ∧
    ∀ (i : nat) (k : Z),
      0 ≤ k →
      (i, k) ≠ (Z.to_nat (px + (py `quot` 8) * WIDTH (dev m)), Z.land py 7) →
      Z.testbit (buf' !!! i) k = Z.testbit (buf !!! i) k.
Proof.
  intros Hgfx (buf & Hbuf & Hlen & Hbytes) _ _ Hx Hy Hcolor.
  destruct (pixel_access m buf x y color Hgfx Hbuf Hlen Hx Hy)
    as (px & py & b & Htr & Hin & Hb & Hdraw & _).
  set (idx := Z.to_nat (spec_byte_index (WIDTH (dev m)) px py)) in *.
  set (b' := paint_byte color b (1 ≪ spec_bit_position py)) in *.
  set (m' := mkMachine (with_buffer (dev m) (Some (<[idx := b']> buf))) (env m)).
  assert (idx < length buf)%nat as Hidx by (by eapply lookup_lt_Some).
  destruct (pixel_access m' (<[idx := b']> buf) x y color)
    as (px' & py' & b'' & Htr' & _ & Hb' & _ & Hget); try done.
  { by rewrite length_insert. }
  simpl in Htr'. rewrite Htr in Htr'. injection Htr' as <- <-.
  simpl in Hb'. fold idx in Hb'.
  rewrite list_lookup_insert_eq in Hb' by done. injection Hb' as <-.
  pose proof (land_7_range py) as Hk.
  assert (is_uint8 b) as Hbyte.
  { eapply Forall_lookup_1; eauto. }
  exists m', buf, (<[idx := b']> buf), px, py.
  split; [done|]. split.
  { rewrite Hget. f_equal. f_equal. unfold b'.
    rewrite paint_byte_testbit by (done || unfold spec_bit_position; lia).
    rewrite bool_decide_eq_true_2 by done. unfold spec_paint.
    destruct Hcolor as [-> | ->]; done. }
  split; [by rewrite rotate_coords_spec|].
  split; [done|]. split; [done|]. split; [apply length_insert|].
  intros i k Hk0 Hne.
  replace (px + py `quot` 8 * WIDTH (dev m))
    with (spec_byte_index (WIDTH (dev m)) px py) in Hne
    by (unfold spec_byte_index; rewrite Z.quot_div_nonneg; lia).
  fold idx in Hne.
  destruct (decide (i = idx)) as [-> | Hi].
  - rewrite list_lookup_total_insert_eq by done.
    rewrite (list_lookup_total_correct _ _ _ Hb). unfold b'.
    rewrite paint_byte_testbit by (done || unfold spec_bit_position; lia).
    case_bool_decide; [|done]. subst k. by destruct Hne.
  - by rewrite list_lookup_total_insert_ne.
Qed.

(** A 16x8 panel held at rotation 1, all pixels off, and a heap that grants
    every request: a concrete machine for the examples. *)
Definition demo_env : Env := mkEnv (λ _, true) (λ _, 0) 0 [].
Definition demo_machine : Machine :=
  mkMachine (mkSSD1306 16 8 8 16 1 (Some (replicate 16 0)) 0x8F 0) demo_env.

Lemma drawPixel_getPixel_roundtrip_witness :
  ∃ m' buf buf',
    drawPixel 3 5 SSD1306_WHITE demo_machine = Some (tt, m') ∧
    getPixel 3 5 m' = Some (true, m') ∧
    buffer (dev demo_machine) = Some buf ∧ buffer (dev m') = Some buf' ∧
    length buf' = length buf ∧
    Z.testbit (buf' !!! 2%nat) 3 = Z.testbit (buf !!! 2%nat) 3.
Proof.
  destruct (drawPixel_getPixel_roundtrip demo_machine 1 3 5 SSD1306_WHITE)
    as (m' & buf & buf' & px & py & Hdraw & Hget & Hrot & Hb & Hb' & Hlen & Hframe).
  - unfold gfx_ok, is_uint8; simpl. lia.
  - exists (replicate 16 0). simpl. repeat split.
    repeat constructor; unfold is_uint8; lia.
  - reflexivity.
  - lia.
  - simpl; lia.
  - simpl; lia.
  - left. reflexivity.
  - exists m', buf, buf'. repeat split; try done.
    apply Hframe; [lia|].
    vm_compute in Hrot. injection Hrot as <- <-.
    vm_compute. intros [=].
Defined.

(** C2: on a well-formed object, [drawPixel] and [getPixel] address the pixel
    through exactly the spec's transform: the coordinates computed by the code
    are [spec_transform] of the native dimensions, the byte accessed is
    [px + (py / 8) * W], the bit is [py & 7], [drawPixel] rewrites that byte
    only and changes that bit only, and [getPixel] returns that bit.  On a
    128x64 panel at rotation 0, clearing and then drawing (10,20) white leaves
    byte 266 (that is [10 + (20 / 8) * 128] with the integer division of the
    code) equal to [1 << 4] and every other byte zero. *)
Theorem pixel_layout_refines_spec :
  (∀ m buf x y color,
     gfx_ok (dev m) →
     buffer (dev m) = Some buf →
     length buf = Z.to_nat (buffer_size (dev m)) →
     Forall is_uint8 buf →
     0 ≤ x < width (dev m) → 0 ≤ y < height (dev m) →
     ∃ px py b b',
       spec_transform (WIDTH (dev m)) (HEIGHT (dev m)) (getRotation (dev m)) x y
         = (px, py) ∧
       rotate_coords (dev m) x y = (px, py) ∧
       px + (py `quot` 8) * WIDTH (dev m) = spec_byte_index (WIDTH (dev m)) px py ∧
       buf !! Z.to_nat (spec_byte_index (WIDTH (dev m)) px py) = Some b ∧
       drawPixel x y color m =
         Some (tt, mkMachine
                     (with_buffer (dev m)
                        (Some (<[Z.to_nat (spec_byte_index (WIDTH (dev m)) px py)
                                 := b']> buf)))
                     (env m)) ∧
       (∀ k, 0 ≤ k →
             Z.testbit b' k =
               if bool_decide (k = spec_bit_position py)
               then spec_paint color (Z.testbit b k)
               else Z.testbit b k) ∧
       getPixel x y m = Some (Z.testbit b (spec_bit_position py), m))
  ∧
  (∀ buf level port e,
     length buf = 1024%nat →
     (clearDisplay ;; drawPixel 10 20 SSD1306_WHITE)
       (mkMachine (mkSSD1306 128 64 128 64 0 (Some buf) level port) e)
     = Some (tt, mkMachine
                   (mkSSD1306 128 64 128 64 0
                      (Some (<[266%nat := 1 ≪ 4]> (replicate 1024 0)))
                      level port) e)).
Proof.
  split.
  - intros m buf x y color Hgfx Hbuf Hlen Hbytes Hx Hy.
    destruct (pixel_access m buf x y color Hgfx Hbuf Hlen Hx Hy)
      as (px & py & b & Htr & Hin & Hb & Hdraw & Hget).
    exists px, py, b, (paint_byte color b (1 ≪ spec_bit_position py)).
    split; [done|]. split; [by rewrite rotate_coords_spec|].
    split; [unfold spec_byte_index; rewrite Z.quot_div_nonneg; lia|].
    split; [done|]. split; [done|]. split; [|done].
    intros k Hk. rewrite paint_byte_testbit; [|..|done].
    + by case_bool_decide; subst.
    + eapply Forall_lookup_1; eauto.
    + apply land_7_range.
  - intros buf level port e Hlen.
    unfold mbind, M_bind.
    rewrite (clearDisplay_ok _ buf) by done.
    vm_compute. reflexivity.
Qed.

Lemma pixel_layout_refines_spec_witness :
  ∃ b b',
    spec_transform 16 8 1 3 5 = (10, 3) ∧
    rotate_coords (dev demo_machine) 3 5 = (10, 3) ∧
    replicate 16 0 !! 10%nat = Some b ∧
    drawPixel 3 5 SSD1306_INVERSE demo_machine =
      Some (tt, mkMachine
                  (with_buffer (dev demo_machine)
                     (Some (<[10%nat := b']> (replicate 16 0))))
                  demo_env) ∧
    Z.testbit b' 3 = negb (Z.testbit b 3) ∧
    getPixel 3 5 demo_machine = Some (Z.testbit b 3, demo_machine).
Proof.
  destruct (proj1 pixel_layout_refines_spec demo_machine (replicate 16 0) 3 5
              SSD1306_INVERSE)
    as (px & py & b & b' & Htr & Hrot & Hidx & Hb & Hdraw & Hbits & Hget).
  - unfold gfx_ok, is_uint8; simpl. lia.
  - reflexivity.
  - reflexivity.
  - simpl. repeat constructor; unfold is_uint8; lia.
  - simpl; lia.
  - simpl; lia.
  - vm_compute in Htr. injection Htr as <- <-.
    exists b, b'. repeat split; try done.
    apply (Hbits 3). lia.
Defined.

(** A 128x64 panel at rotation 0 whose buffer holds arbitrary old content. *)
Definition scenario_machine : Machine :=
  mkMachine (mkSSD1306 128 64 128 64 0 (Some (replicate 1024 0xFF)) 0xCF 0)
            demo_env.

(** C2, the scenario as the spec words it: after the clear and the white pixel
    at (10,20), byte 330 does not have bit 4 set; it is zero. *)
Lemma scenario_byte_330_not_set :
  ¬ (∃ m' buf',
       (clearDisplay ;; drawPixel 10 20 SSD1306_WHITE) scenario_machine
         = Some (tt, m') ∧
       buffer (dev m') = Some buf' ∧
       Z.testbit (buf' !!! 330%nat) 4 = true).
Proof.
  intros (m' & buf' & Hrun & Hbuf & Hbit).
  vm_compute in Hrun. injection Hrun as <-.
  vm_compute in Hbuf. injection Hbuf as <-.
  vm_compute in Hbit. discriminate.
Qed.

(** C4: outside the logical bounds of the current rotation [drawPixel] changes
    nothing at all, whatever the colour, [getPixel] returns false, and
    neither runs into undefined behaviour. *)
Theorem out_of_bounds_ignored m x y color :
  ¬ (0 ≤ x < width (dev m) ∧ 0 ≤ y < height (dev m)) →
  drawPixel x y color m = Some (tt, m) ∧
  getPixel x y m = Some (false, m).
Proof.
  intros Hout.
  assert ((0 <=? x) && (x <? width (dev m)) && (0 <=? y) && (y <? height (dev m))
          = false) as Htest.
  { apply not_true_is_false. rewrite !andb_true_iff. lia. }
  unfold drawPixel, getPixel, mbind, M_bind, get_dev.
  by rewrite Htest.
Qed.

Lemma out_of_bounds_ignored_witness :
  drawPixel 8 0 SSD1306_WHITE demo_machine = Some (tt, demo_machine) ∧
  getPixel 8 0 demo_machine = Some (false, demo_machine).
Proof.
  apply (out_of_bounds_ignored demo_machine 8 0 SSD1306_WHITE).
  simpl. lia.
Defined.

(** C10: at an in-bounds coordinate, a colour that is none of
    [SSD1306_WHITE], [SSD1306_BLACK], [SSD1306_INVERSE] leaves the whole
    machine, and so the buffer, unchanged. *)
Theorem unknown_color_ignored m x y color :
  0 ≤ x < width (dev m) → 0 ≤ y < height (dev m) →
  color ≠ SSD1306_WHITE → color ≠ SSD1306_BLACK → color ≠ SSD1306_INVERSE →
  drawPixel x y color m = Some (tt, m).
Proof.
  intros Hx Hy Hw Hb Hi.
  unfold drawPixel, mbind, M_bind, get_dev.
  destruct (_ && _); [|done].
  destruct (rotate_coords (dev m) x y) as [px py].
  destruct (Z.eqb_spec color SSD1306_WHITE); [done|].
  destruct (Z.eqb_spec color SSD1306_BLACK); [done|].
  destruct (Z.eqb_spec color SSD1306_INVERSE); [done|].
  done.
Qed.

Lemma unknown_color_ignored_witness :
  drawPixel 3 5 7 demo_machine = Some (tt, demo_machine).
Proof.
  apply (unknown_color_ignored demo_machine 3 5 7);
    simpl; unfold SSD1306_WHITE, SSD1306_BLACK, SSD1306_INVERSE; lia.
Defined.

(** C8: the rotation-2 case of the coordinate switch is an involution on
    [int16_t] coordinates, and so is the spec's rotation-2 transform on all
    integers. *)
Theorem rotation2_involutive d x y :
  getRotation d = 2 → is_int16 x → is_int16 y →
  (let '(px, py) := rotate_coords d x y in rotate_coords d px py = (x, y)) ∧
  (let '(px, py) := spec_transform (WIDTH d) (HEIGHT d) 2 x y in
   spec_transform (WIDTH d) (HEIGHT d) 2 px py = (x, y)).
Proof.
  unfold is_int16, rotate_coords. intros -> Hx Hy. simpl. split.
  - unfold to_int16. f_equal; Z.to_euclidean_division_equations; lia.
  - f_equal; lia.
Qed.

Lemma rotation2_involutive_witness :
  (let '(px, py) :=
     rotate_coords (mkSSD1306 128 64 128 64 2 None 0 0) (-32768) 20 in
   rotate_coords (mkSSD1306 128 64 128 64 2 None 0 0) px py = (-32768, 20)) ∧
  (let '(px, py) := spec_transform 128 64 2 (-32768) 20 in
   spec_transform 128 64 2 px py = (-32768, 20)).
Proof.
  apply (rotation2_involutive (mkSSD1306 128 64 128 64 2 None 0 0) (-32768) 20).
  - reflexivity.
  - unfold is_int16; lia.
  - unfold is_int16; lia.
Defined.

(** ** Bus traffic of the command functions *)

(** [issues c m k ts]: run from [m], the computation [c] returns normally,
    leaves the object as it was, makes [k] heap requests and puts exactly the
    transactions [ts] on the bus. *)
Definition issues (c : M unit) (m : Machine) (k : nat)
    (ts : list transaction) : Prop :=
  c m = Some (tt, mkMachine (dev m) (env_after (env m) k ts)).

(** [commands_only c]: from every machine, [c] returns normally, does not
    touch the object and puts only command-stream transactions on the bus. *)
Definition commands_only (c : M unit) : Prop :=
  ∀ m, ∃ k ts, issues c m k ts ∧ Forall is_cmd_transaction ts.

Lemma env_after_after e k1 ts1 k2 ts2 :
  env_after (env_after e k1 ts1) k2 ts2 = env_after e (k1 + k2) (ts1 ++ ts2).
Proof.
  unfold env_after; simpl. f_equal; [lia | by rewrite app_assoc].
Qed.

Lemma issues_bind c1 c2 m k1 ts1 k2 ts2 :
  issues c1 m k1 ts1 →
  issues c2 (mkMachine (dev m) (env_after (env m) k1 ts1)) k2 ts2 →
  issues (c1 ;; c2) m (k1 + k2) (ts1 ++ ts2).
Proof.
  unfold issues, mbind, M_bind. intros -> ->. simpl.
  by rewrite env_after_after.
Qed.

Lemma issues_get_dev (f : SSD1306 → M unit) m k ts :
  issues (f (dev m)) m k ts → issues (d ← get_dev; f d) m k ts.
Proof. done. Qed.

Lemma commands_only_bind c1 c2 :
  commands_only c1 → commands_only c2 → commands_only (c1 ;; c2).
Proof.
  intros H1 H2 m.
  destruct (H1 m) as (k1 & ts1 & Hc1 & Hts1).
  destruct (H2 (mkMachine (dev m) (env_after (env m) k1 ts1)))
    as (k2 & ts2 & Hc2 & Hts2).
  exists (k1 + k2)%nat, (ts1 ++ ts2). split.
  - by apply issues_bind.
  - by apply Forall_app.
Qed.

Lemma commands_only_get_dev (f : SSD1306 → M unit) :
  (∀ d, commands_only (f d)) → commands_only (d ← get_dev; f d).
Proof. intros Hf m. apply (Hf (dev m) m). Qed.

Lemma to_uint8_idemp z : to_uint8 (to_uint8 z) = to_uint8 z.
Proof. apply to_uint8_id, to_uint8_range. Qed.

Lemma commandList_loop_ok n c ops m :
  (n ≤ length c)%nat →
  commandList_loop n c (Some ops) m =
    Some (Some (ops ++ ((λ b, I2C_write_byte (to_uint8 b) true) <$> take n c)), m).
Proof.
  revert c ops. induction n as [|n IH]; intros c ops Hn; simpl.
  - by rewrite app_nil_r.
  - destruct c as [|b c]; simpl in *; [lia|].
    rewrite IH by lia. by rewrite <- app_assoc.
Qed.

(** Outcome of one heap request. *)
Lemma heap_request_eq m :
  heap_request m =
    Some (heap_ok (env m) (heap_calls (env m)),
          mkMachine (dev m) (env_after (env m) 1 [])).
Proof.
  unfold heap_request, env_after. simpl.
  by rewrite app_nil_r, Nat.add_1_r.
Qed.

Lemma ssd1306_command1_granted c m :
  heap_ok (env m) (heap_calls (env m)) = true →
  issues (ssd1306_command1 c) m 1 [cmd_transaction (i2c (dev m)) [to_uint8 c]].
Proof.
  intros Hok.
  unfold issues, ssd1306_command1, i2c_cmd_link_create, mbind, M_bind.
  rewrite heap_request_eq, Hok. simpl.
  unfold cmd_transaction, frame_ops, env_after. simpl.
  by rewrite to_uint8_idemp, app_nil_r.
Qed.

Lemma ssd1306_command1_refused c m :
  heap_ok (env m) (heap_calls (env m)) = false →
  issues (ssd1306_command1 c) m 1 [].
Proof.
  intros Hok.
  unfold issues, ssd1306_command1, i2c_cmd_link_create, mbind, M_bind.
  by rewrite heap_request_eq, Hok.
Qed.

Lemma ssd1306_commandList_granted c m :
  Z.of_nat (length c) < 256 →
  heap_ok (env m) (heap_calls (env m)) = true →
  issues (ssd1306_commandList c (sizeof c)) m 1
         [cmd_transaction (i2c (dev m)) (to_uint8 <$> c)].
Proof.
  intros Hlen Hok.
  unfold issues, ssd1306_commandList, i2c_cmd_link_create, mbind, M_bind.
  rewrite heap_request_eq, Hok. simpl.
  unfold sizeof. rewrite to_uint8_id by (unfold is_uint8; lia).
  rewrite Nat2Z.id, commandList_loop_ok by done. simpl.
  rewrite firstn_all.
  unfold cmd_transaction, frame_ops, env_after. simpl.
  rewrite app_nil_r, <- list_fmap_compose. reflexivity.
Qed.

Lemma ssd1306_commandList_refused c n m :
  heap_ok (env m) (heap_calls (env m)) = false →
  issues (ssd1306_commandList c n) m 1 [].
Proof.
  intros Hok.
  unfold issues, ssd1306_commandList, i2c_cmd_link_create, mbind, M_bind.
  by rewrite heap_request_eq, Hok.
Qed.

Lemma cmd_transaction_is_cmd port payload :
  Forall is_cmd_transaction [cmd_transaction port payload].
Proof. repeat constructor. by exists port, payload. Qed.

Lemma ssd1306_command1_commands_only c : commands_only (ssd1306_command1 c).
Proof.
  intros m. destruct (heap_ok (env m) (heap_calls (env m))) eqn:Hok.
  - eexists _, _. split; [by apply ssd1306_command1_granted|].
    apply cmd_transaction_is_cmd.
  - eexists _, _. split; [by apply ssd1306_command1_refused|]. constructor.
Qed.

Lemma ssd1306_commandList_commands_only c :
  Z.of_nat (length c) < 256 →
  commands_only (ssd1306_commandList c (sizeof c)).
Proof.
  intros Hlen m. destruct (heap_ok (env m) (heap_calls (env m))) eqn:Hok.
  - eexists _, _. split; [by apply ssd1306_commandList_granted|].
    apply cmd_transaction_is_cmd.
  - eexists _, _. split; [by apply ssd1306_commandList_refused|]. constructor.
Qed.

(** What [commands_only] says about the object and the bus. *)
Lemma commands_only_frame c :
  commands_only c →
  ∀ m, ∃ m' ts,
    c m = Some (tt, m') ∧ dev m' = dev m ∧
    bus (env m') = bus (env m) ++ ts ∧ Forall is_cmd_transaction ts.
Proof.
  intros Hc m. destruct (Hc m) as (k & ts & Hrun & Hts).
  by exists (mkMachine (dev m) (env_after (env m) k ts)), ts.
Qed.

Ltac commands_only_steps :=
  repeat first
    [ apply ssd1306_command1_commands_only
    | apply ssd1306_commandList_commands_only; simpl; lia
    | apply commands_only_get_dev; intros ?
    | apply commands_only_bind ].

Lemma stopscroll_commands_only : commands_only stopscroll.
Proof. unfold stopscroll. commands_only_steps. Qed.

Lemma invertDisplay_commands_only i : commands_only (invertDisplay i).
Proof. unfold invertDisplay. commands_only_steps. Qed.

Lemma dim_commands_only b : commands_only (dim b).
Proof. unfold dim. commands_only_steps. Qed.

Lemma startscrollright_commands_only start stop :
  commands_only (startscrollright start stop).
Proof. unfold startscrollright. cbv zeta. commands_only_steps. Qed.

Lemma startscrollleft_commands_only start stop :
  commands_only (startscrollleft start stop).
Proof. unfold startscrollleft. cbv zeta. commands_only_steps. Qed.

Lemma startscrolldiagright_commands_only start stop :
  commands_only (startscrolldiagright start stop).
Proof. unfold startscrolldiagright. cbv zeta. commands_only_steps. Qed.

Lemma startscrolldiagleft_commands_only start stop :
  commands_only (startscrolldiagleft start stop).
Proof. unfold startscrolldiagleft. cbv zeta. commands_only_steps. Qed.

(** The device control operations of the class. *)
Definition control_ops (i d : bool) (start stop : Z) : list (M unit) :=
  [ invertDisplay i; dim d;
    startscrollright start stop; startscrollleft start stop;
    startscrolldiagright start stop; startscrolldiagleft start stop;
    stopscroll ].

(** C9: [invertDisplay], [dim], the four [startscroll...] functions and
    [stopscroll] return normally from every machine, leave the object and in
    particular every byte of the pixel buffer as they were, and add nothing
    but command-stream transactions to the bus. *)
Theorem control_ops_leave_buffer i d start stop :
  Forall (λ op : M unit,
            ∀ m, ∃ m' ts,
              op m = Some (tt, m') ∧
              buffer (dev m') = buffer (dev m) ∧
              dev m' = dev m ∧
              bus (env m') = bus (env m) ++ ts ∧
              Forall is_cmd_transaction ts)
         (control_ops i d start stop).
Proof.
  assert (∀ op, commands_only op →
            ∀ m, ∃ m' ts,
              op m = Some (tt, m') ∧
              buffer (dev m') = buffer (dev m) ∧
              dev m' = dev m ∧
              bus (env m') = bus (env m) ++ ts ∧
              Forall is_cmd_transaction ts) as Hframe.
  { intros op Hop m.
    destruct (commands_only_frame op Hop m) as (m' & ts & Hrun & Hdev & Hbus & Hts).
    exists m', ts. by rewrite Hdev. }
  unfold control_ops.
  repeat (apply Forall_cons_2; [apply Hframe|]); [..|apply Forall_nil_2].
  - apply invertDisplay_commands_only.
  - apply dim_commands_only.
  - apply startscrollright_commands_only.
  - apply startscrollleft_commands_only.
  - apply startscrolldiagright_commands_only.
  - apply startscrolldiagleft_commands_only.
  - apply stopscroll_commands_only.
Qed.

(** ** Refresh *)

Lemma run_bind {A B} (c : M A) (f : A → M B) m a m' :
  c m = Some (a, m') → (c ≫= f) m = f a m'.
Proof. unfold mbind, M_bind. by intros ->. Qed.

Lemma i2c_cmd_link_create_granted m :
  heap_ok (env m) (heap_calls (env m)) = true →
  i2c_cmd_link_create m =
    Some (Some [], mkMachine (dev m) (env_after (env m) 1 [])).
Proof.
  intros Hok. unfold i2c_cmd_link_create.
  rewrite (run_bind _ _ _ _ _ (heap_request_eq m)). by rewrite Hok.
Qed.

Lemma display_loop_ok count : ∀ ptr ops m buf,
  buffer (dev m) = Some buf →
  0 ≤ ptr →
  (Z.to_nat ptr + count ≤ length buf)%nat →
  display_loop count ptr (Some ops) m =
    Some (Some (ops ++ ((λ b, I2C_write_byte (to_uint8 b) true) <$>
                          take count (drop (Z.to_nat ptr) buf))), m).
Proof.
  induction count as [|count IH]; intros ptr ops m buf Hbuf Hptr Hlen; simpl.
  - by rewrite app_nil_r.
  - destruct (lookup_lt_is_Some_2 buf (Z.to_nat ptr)) as [b Hb]; [lia|].
    unfold mbind, M_bind, buffer_load, array_index. rewrite Hbuf.
    destruct (Z.leb_spec 0 ptr); [|lia]. rewrite Hb.
    rewrite (IH (ptr + 1) _ m buf) by (done || lia).
    rewrite (drop_S _ _ _ Hb). simpl.
    replace (Z.to_nat (ptr + 1)) with (S (Z.to_nat ptr)) by lia.
    unfold i2c_master_write_byte, i2c_queue. by rewrite <- app_assoc.
Qed.

Lemma buffer_size_range d :
  is_uint8 (WIDTH d) → is_uint8 (HEIGHT d) →
  0 ≤ buffer_size d < 65536 ∧
  buffer_size d = WIDTH d * ((HEIGHT d + 7) / 8) ∧
  8 * ((HEIGHT d + 7) / 8 - 1) < HEIGHT d ≤ 8 * ((HEIGHT d + 7) / 8).
Proof.
  unfold is_uint8, buffer_size. intros HW HH.
  rewrite Z.quot_div_nonneg by lia.
  assert (0 ≤ (HEIGHT d + 7) / 8 ≤ 32) by (split; Z.to_euclidean_division_equations; lia).
  split; [nia|]. split; [done|].
  Z.to_euclidean_division_equations; lia.
Qed.

Lemma uint8_fmap_id (l : list Z) : Forall is_uint8 l → to_uint8 <$> l = l.
Proof.
  induction 1 as [|b l Hb _ IH]; simpl; [done|].
  f_equal; [by apply to_uint8_id | apply IH].
Qed.

(** C3: on a well-formed object with an allocated buffer, when the heap grants
    the three command links, [display] returns normally and puts exactly
    three transactions on the bus, whatever the buffer holds: the command
    list (page address, 0, 0xFF, column address, 0), the single command
    [WIDTH - 1] (as a byte), and one data-stream transaction carrying the
    [WIDTH * ceil(HEIGHT / 8)] bytes of the buffer in buffer order. *)
Theorem display_emits m buf :
  gfx_ok (dev m) →
  buffer (dev m) = Some buf →
  length buf = Z.to_nat (buffer_size (dev m)) →
  Forall is_uint8 buf →
  heap_never_fails (env m) →
  issues display m 3
    [ cmd_transaction (i2c (dev m))
        [SSD1306_PAGEADDR; 0; 0xFF; SSD1306_COLUMNADDR; 0];
      cmd_transaction (i2c (dev m)) [to_uint8 (WIDTH (dev m) - 1)];
      data_transaction (i2c (dev m)) buf ] ∧
  (1 ≤ WIDTH (dev m) → to_uint8 (WIDTH (dev m) - 1) = WIDTH (dev m) - 1) ∧
  ∃ pages,
    8 * (pages - 1) < HEIGHT (dev m) ≤ 8 * pages ∧
    Z.of_nat (length buf) = WIDTH (dev m) * pages.
Proof.
  intros (HW & HH & _) Hbuf Hlen Hbytes Hheap.
  destruct (buffer_size_range (dev m) HW HH) as (Hsize & Hsize_eq & Hceil).
  split; [|split].
  - unfold issues, display.
    pose proof (ssd1306_commandList_granted dlist1 m) as Hlist.
    unfold issues in Hlist.
    rewrite (run_bind _ _ _ _ _ (Hlist ltac:(simpl; lia) (Hheap _))).
    rewrite (run_bind get_dev _ _ _ _ eq_refl). cbn [dev env].
    pose proof (ssd1306_command1_granted (WIDTH (dev m) - 1)
                  (mkMachine (dev m) (env_after (env m) 1
                     [cmd_transaction (i2c (dev m)) (to_uint8 <$> dlist1)]))
                  (Hheap _)) as Hcol.
    unfold issues in Hcol. cbn [dev env] in Hcol.
    rewrite (run_bind _ _ _ _ _ Hcol).
    match goal with
    | |- (i2c_cmd_link_create ≫= _) ?m2 = _ =>
        rewrite (run_bind _ _ _ _ _ (i2c_cmd_link_create_granted m2 (Hheap _)))
    end.
    cbn [dev env].
    unfold to_uint16. rewrite Z.mod_small by lia.
    unfold i2c_master_start, i2c_master_write_byte, i2c_queue.
    match goal with
    | |- (display_loop ?n 0 (Some ?ops) ≫= _) ?m3 = _ =>
        rewrite (run_bind _ _ _ _ _
                   (display_loop_ok n 0 ops m3 buf Hbuf ltac:(lia) ltac:(lia)))
    end.
    rewrite <- Hlen, drop_0, firstn_all.
    rewrite (list_fmap_compose to_uint8 (λ b, I2C_write_byte b true)).
    rewrite uint8_fmap_id by done.
    unfold mbind, M_bind, i2c_master_cmd_begin, get_env, put_env,
      i2c_cmd_link_delete, mret, M_ret.
    cbn [dev env]. rewrite !env_after_after.
    unfold env_after, data_transaction, frame_ops.
    cbn [dev env heap_ok heap_junk heap_calls bus].
    do 4 f_equal. cbn [dev env bus].
    rewrite <- !app_assoc. reflexivity.
  - intros HW1. apply to_uint8_id. unfold is_uint8 in *. lia.
  - exists ((HEIGHT (dev m) + 7) / 8). split; [done|]. lia.
Qed.

Lemma display_emits_witness :
  issues display demo_machine 3
    [ cmd_transaction 0 [SSD1306_PAGEADDR; 0; 0xFF; SSD1306_COLUMNADDR; 0];
      cmd_transaction 0 [to_uint8 (16 - 1)];
      data_transaction 0 (replicate 16 0) ] ∧
  to_uint8 (16 - 1) = 16 - 1 ∧
  ∃ pages,
    8 * (pages - 1) < 8 ≤ 8 * pages ∧
    Z.of_nat (length (replicate 16 0)) = 16 * pages.
Proof.
  destruct (display_emits demo_machine (replicate 16 0))
    as (Hbus & Hcol & Hpages).
  - unfold gfx_ok, is_uint8; simpl. lia.
  - reflexivity.
  - reflexivity.
  - simpl. repeat constructor; unfold is_uint8; lia.
  - intros n. reflexivity.
  - split; [exact Hbus|]. split; [|exact Hpages].
    apply Hcol. simpl. lia.
Defined.

(** ** Clearing *)

(** C6: on a well-formed object with an allocated buffer, [clearDisplay]
    returns normally, sets the buffer to [WIDTH * ceil(HEIGHT / 8)] zero
    bytes and leaves the rest of the object, the heap and the bus as they
    were; afterwards [getPixel] returns false at every in-bounds coordinate,
    for each rotation 0..3 selected with [setRotation]. *)
Theorem clearDisplay_clears m :
  gfx_ok (dev m) → buffer_ok (dev m) →
  ∃ m' pages,
    clearDisplay m = Some (tt, m') ∧
    8 * (pages - 1) < HEIGHT (dev m) ≤ 8 * pages ∧
    dev m' = with_buffer (dev m)
               (Some (replicate (Z.to_nat (WIDTH (dev m) * pages)) 0)) ∧
    env m' = env m ∧
    ∀ r mr x y,
      0 ≤ r ≤ 3 →
      setRotation r m' = Some (tt, mr) →
      0 ≤ x < width (dev mr) → 0 ≤ y < height (dev mr) →
      getRotation (dev mr) = r ∧ getPixel x y mr = Some (false, mr).
Proof.
  intros Hgfx (buf & Hbuf & Hlen & _).
  pose proof Hgfx as (HW & HH & _).
  destruct (buffer_size_range (dev m) HW HH) as (Hsize & Hsize_eq & Hceil).
  eexists _, ((HEIGHT (dev m) + 7) / 8).
  split; [by apply (clearDisplay_ok m buf)|].
  split; [done|]. rewrite <- Hsize_eq. split; [done|]. split; [done|].
  intros r mr x y Hr Hrot Hx Hy. cbn [dev env] in *.
  destruct (setRotation_gfx_ok r
              (mkMachine (with_buffer (dev m)
                 (Some (replicate (Z.to_nat (buffer_size (dev m))) 0))) (env m)))
    as (d' & Hrot' & Hgfx' & Hr' & HW' & HH' & Hbuf'); [done|].
  rewrite Hrot in Hrot'. injection Hrot' as ->.
  cbn [dev env] in *.
  assert (Z.land r 3 = r) as Hland.
  { change 3 with (Z.ones 2). rewrite Z.land_ones by lia.
    apply Z.mod_small. lia. }
  split; [unfold getRotation; congruence|].
  destruct (pixel_access (mkMachine d' (env m))
              (replicate (Z.to_nat (buffer_size (dev m))) 0) x y 0)
    as (px & py & b & _ & _ & Hb & _ & Hget); try done.
  { rewrite length_replicate. unfold buffer_size. cbn [dev].
    by rewrite HW', HH'. }
  rewrite Hget. apply lookup_replicate in Hb as [-> _].
  by rewrite Z.bits_0.
Qed.

(** The scenario panel once cleared, and then turned to rotation 3. *)
Definition cleared_machine : Machine :=
  mkMachine (mkSSD1306 128 64 128 64 0 (Some (replicate 1024 0)) 0xCF 0)
            demo_env.
Definition cleared_machine_rot3 : Machine :=
  mkMachine (mkSSD1306 128 64 64 128 3 (Some (replicate 1024 0)) 0xCF 0)
            demo_env.

Lemma clearDisplay_clears_witness :
  clearDisplay scenario_machine = Some (tt, cleared_machine) ∧
  setRotation 3 cleared_machine = Some (tt, cleared_machine_rot3) ∧
  getRotation (dev cleared_machine_rot3) = 3 ∧
  getPixel 5 100 cleared_machine_rot3 = Some (false, cleared_machine_rot3).
Proof.
  destruct (clearDisplay_clears scenario_machine)
    as (m' & pages & Hclear & Hpages & Hdev & Henv & Hpix).
  - unfold gfx_ok, is_uint8; simpl. lia.
  - exists (replicate 1024 0xFF). split; [reflexivity|].
    split; [reflexivity|].
    apply Forall_replicate. unfold is_uint8. lia.
  - assert (m' = cleared_machine) as ->.
    { vm_compute in Hclear. injection Hclear as <-. reflexivity. }
    split; [exact Hclear|]. split; [reflexivity|].
    apply (Hpix 3 cleared_machine_rot3 5 100);
      [lia | reflexivity | simpl; lia | simpl; lia].
Defined.

(** ** Drawing never leaves the buffer *)

(** [repaints m m']: [m'] is [m] with another buffer of the same size. *)
Definition repaints (m m' : Machine) : Prop :=
  ∃ buf', m' = mkMachine (with_buffer (dev m) (Some buf')) (env m) ∧
          length buf' = Z.to_nat (buffer_size (dev m)) ∧
          Forall is_uint8 buf'.

Lemma repaints_refl m : buffer_ok (dev m) → repaints m m.
Proof.
  intros (buf & Hbuf & Hlen & Hbytes). exists buf.
  by rewrite with_buffer_id, machine_eta.
Qed.

Lemma repaints_trans m1 m2 m3 : repaints m1 m2 → repaints m2 m3 → repaints m1 m3.
Proof.
  intros (b2 & -> & Hl2 & Hb2) (b3 & -> & Hl3 & Hb3).
  exists b3. done.
Qed.

Lemma repaints_ok m m' :
  gfx_ok (dev m) → repaints m m' → gfx_ok (dev m') ∧ buffer_ok (dev m').
Proof.
  intros Hgfx (buf' & -> & Hlen & Hbytes). split; [done|].
  by exists buf'.
Qed.

Lemma drawPixel_total m x y color :
  gfx_ok (dev m) → buffer_ok (dev m) →
  ∃ m', drawPixel x y color m = Some (tt, m') ∧ repaints m m'.
Proof.
  intros Hgfx Hok.
  destruct (decide (0 ≤ x < width (dev m) ∧ 0 ≤ y < height (dev m)))
    as [[Hx Hy] | Hout].
  - destruct Hok as (buf & Hbuf & Hlen & Hbytes).
    destruct (pixel_access m buf x y color Hgfx Hbuf Hlen Hx Hy)
      as (px & py & b & _ & _ & Hb & Hdraw & _).
    eexists. split; [exact Hdraw|].
    eexists. split; [done|]. split; [by rewrite length_insert|].
    apply Forall_insert; [done|].
    apply paint_byte_range. eapply Forall_lookup_1; eauto.
  - exists m. split; [|by apply repaints_refl].
    unfold drawPixel, mbind, M_bind, get_dev.
    replace (_ && _) with false; [done|].
    symmetry. apply not_true_is_false. rewrite !andb_true_iff. lia.
Qed.

Lemma drawBitmap_row_total cols : ∀ x y bitmap w h j color b m,
  (∀ i, i ∈ cols → 0 ≤ i < w) →
  0 ≤ j < h →
  h * ((w + 7) / 8) ≤ Z.of_nat (length bitmap) →
  gfx_ok (dev m) → buffer_ok (dev m) →
  ∃ b' m',
    drawBitmap_row cols x y bitmap ((w + 7) / 8) j color b m = Some (b', m') ∧
    repaints m m'.
Proof.
  induction cols as [|i cols IH];
    intros x y bitmap w h j color b m Hcols Hj Hlen Hgfx Hok; simpl.
  - exists b, m. split; [done|]. by apply repaints_refl.
  - assert (0 ≤ i < w) as Hi by (apply Hcols; left).
    assert (∃ b1, (if Z.land i 7 =? 0
                   then match array_index (Some bitmap)
                                (j * ((w + 7) / 8) + i `quot` 8) with
                        | Some v => mret v
                        | None => undefined
                        end
                   else mret (to_uint8 (b ≪ 1))) m = Some (b1, m)) as [b1 Hb1].
    { destruct (Z.land i 7 =? 0); [|by eexists].
      unfold array_index.
      rewrite Z.quot_div_nonneg by lia.
      assert (0 ≤ j * ((w + 7) / 8) + i / 8 < h * ((w + 7) / 8)) as Hidx.
      { assert (0 ≤ i / 8 < (w + 7) / 8)
          by (Z.to_euclidean_division_equations; lia).
        nia. }
      destruct (Z.leb_spec 0 (j * ((w + 7) / 8) + i / 8)); [|lia].
      destruct (lookup_lt_is_Some_2 bitmap
                  (Z.to_nat (j * ((w + 7) / 8) + i / 8))) as [v ->]; [lia|].
      by eexists. }
    rewrite (run_bind _ _ _ _ _ Hb1).
    assert (∃ m1, (if Z.land b1 128 =? 0 then mret tt
                   else drawPixel (to_int16 (x + i)) y color) m = Some (tt, m1) ∧
                  repaints m m1) as (m1 & Hm1 & Hrep1).
    { destruct (Z.land b1 128 =? 0).
      - exists m. split; [done|]. by apply repaints_refl.
      - by apply drawPixel_total. }
    rewrite (run_bind _ _ _ _ _ Hm1).
    destruct (repaints_ok m m1 Hgfx Hrep1) as [Hgfx1 Hok1].
    destruct (IH x y bitmap w h j color b1 m1) as (b' & m' & Hrun & Hrep);
      try done.
    { intros i' Hi'. apply Hcols. by right. }
    exists b', m'. split; [done|]. by eapply repaints_trans.
Qed.

Lemma drawBitmap_rows_total rows : ∀ x y bitmap w h color b m,
  (∀ j, j ∈ rows → 0 ≤ j < h) →
  h * ((w + 7) / 8) ≤ Z.of_nat (length bitmap) →
  gfx_ok (dev m) → buffer_ok (dev m) →
  ∃ m',
    drawBitmap_rows rows x y bitmap w ((w + 7) / 8) color b m = Some (tt, m') ∧
    repaints m m'.
Proof.
  induction rows as [|j rows IH];
    intros x y bitmap w h color b m Hrows Hlen Hgfx Hok; simpl.
  - exists m. split; [done|]. by apply repaints_refl.
  - destruct (drawBitmap_row_total (seqZ 0 w) x y bitmap w h j color b m)
      as (b1 & m1 & Hrow & Hrep1); try done.
    { intros i Hi. apply elem_of_seqZ in Hi. lia. }
    { apply Hrows. left. }
    rewrite (run_bind _ _ _ _ _ Hrow).
    destruct (repaints_ok m m1 Hgfx Hrep1) as [Hgfx1 Hok1].
    destruct (IH x (to_int16 (y + 1)) bitmap w h color b1 m1)
      as (m' & Hrun & Hrep); try done.
    { intros j' Hj'. apply Hrows. by right. }
    exists m'. split; [done|]. by eapply repaints_trans.
Qed.

Lemma drawBitmap_total m x y bm color :
  bitmap_ok bm → gfx_ok (dev m) → buffer_ok (dev m) →
  ∃ m',
    drawBitmap x y (bm_data bm) (bm_width bm) (bm_height bm) color m
      = Some (tt, m') ∧
    repaints m m'.
Proof.
  intros (Hw & Hh & Hlen) Hgfx Hok. unfold drawBitmap.
  rewrite Z.quot_div_nonneg in * by lia.
  rewrite (to_int16_id ((bm_width bm + 7) / 8))
    by (unfold is_int16; Z.to_euclidean_division_equations; lia).
  apply (drawBitmap_rows_total _ _ _ _ _ (bm_height bm)); try done.
  intros j Hj. apply elem_of_seqZ in Hj. lia.
Qed.

(** ** Initialisation *)

Lemma commands_then c :
  commands_only c →
  ∀ B (f : M B) m,
    ∃ e', heap_ok e' = heap_ok (env m) ∧
          (c ;; f) m = f (mkMachine (dev m) e').
Proof.
  intros Hc B f m. destruct (Hc m) as (k & ts & Hrun & _).
  exists (env_after (env m) k ts). split; [done|].
  by rewrite (run_bind _ _ _ _ _ Hrun).
Qed.

Ltac skip_command :=
  match goal with
  | |- context [ (?c ≫= ?f) ?mm ] =>
      let e := fresh "e" in
      let He := fresh "He" in
      let Hr := fresh "Hr" in
      destruct (commands_then c ltac:(commands_only_steps) _ (f tt) mm)
        as (e & He & Hr);
      cbv beta in Hr; rewrite Hr; clear Hr; cbn [dev env] in *
  end.

Lemma begin_init_total splash1 splash2 m :
  bitmap_ok splash1 → bitmap_ok splash2 →
  gfx_ok (dev m) → buffer_ok (dev m) →
  ∃ m' buf',
    begin_init splash1 splash2 m = Some (true, m') ∧
    dev m' = with_contrast (with_buffer (dev m) (Some buf'))
               (to_uint8 (geometry_params (dev m)).2) ∧
    length buf' = Z.to_nat (buffer_size (dev m)) ∧
    Forall is_uint8 buf' ∧
    heap_ok (env m') = heap_ok (env m).
Proof.
  intros Hs1 Hs2 Hgfx Hok. pose proof Hok as (buf & Hbuf & Hlen & _).
  unfold begin_init.
  rewrite (run_bind _ _ _ _ _ (clearDisplay_ok m buf Hbuf Hlen)).
  rewrite (run_bind get_dev _ _ _ _ eq_refl). cbn [dev env].
  set (m1 := mkMachine (with_buffer (dev m)
               (Some (replicate (Z.to_nat (buffer_size (dev m))) 0))) (env m)).
  assert (repaints m m1) as Hrep1.
  { eexists. split; [done|]. split; [by rewrite length_replicate|].
    apply Forall_replicate. unfold is_uint8. lia. }
  destruct (repaints_ok m m1 Hgfx Hrep1) as [Hgfx1 Hok1].
  match goal with
  | |- context [ (?splash ≫= ?f) m1 ] =>
      assert (∃ m2, splash m1 = Some (tt, m2) ∧ repaints m1 m2)
        as (m2 & Hsplash & Hrep2)
  end.
  { destruct (32 <? _); by apply drawBitmap_total. }
  rewrite (run_bind _ _ _ _ _ Hsplash).
  pose proof (repaints_trans _ _ _ Hrep1 Hrep2) as (buf2 & -> & Hlen2 & Hbytes2).
  cbn [dev env].
  do 5 skip_command.
  replace (geometry_params _) with (geometry_params (dev m)) by done.
  destruct (geometry_params (dev m)) as [comPins level]. cbn [snd].
  unfold set_contrast at 1.
  rewrite (run_bind _ _ _ _ _ (run_bind get_dev _ _ _ _ eq_refl)).
  unfold put_dev. cbn [dev env].
  do 3 skip_command.
  rewrite (run_bind get_dev _ _ _ _ eq_refl). cbn [dev env].
  do 4 skip_command.
  eexists _, buf2. split; [reflexivity|]. cbn [dev env].
  split; [done|]. split; [done|]. split; [done|]. congruence.
Qed.

Lemma malloc_eq n m :
  malloc n m =
    Some (if heap_ok (env m) (heap_calls (env m))
          then Some ((λ k, to_uint8 (heap_junk (env m) k)) <$> seq 0 (Z.to_nat n))
          else None,
          mkMachine (dev m) (env_after (env m) 1 [])).
Proof.
  unfold malloc.
  rewrite (run_bind get_env _ _ _ _ eq_refl).
  rewrite (run_bind _ _ _ _ _ (heap_request_eq m)).
  by destruct (heap_ok _ _).
Qed.

Lemma begin_total splash1 splash2 m :
  bitmap_ok splash1 → bitmap_ok splash2 →
  gfx_ok (dev m) →
  (buffer (dev m) = None ∧ heap_ok (env m) (heap_calls (env m)) = true)
    ∨ buffer_ok (dev m) →
  ∃ m' buf',
    begin splash1 splash2 m = Some (true, m') ∧
    dev m' = with_contrast (with_buffer (dev m) (Some buf'))
               (to_uint8 (geometry_params (dev m)).2) ∧
    length buf' = Z.to_nat (buffer_size (dev m)) ∧
    Forall is_uint8 buf' ∧
    heap_ok (env m') = heap_ok (env m).
Proof.
  intros Hs1 Hs2 Hgfx Halloc. unfold begin.
  rewrite (run_bind get_dev _ _ _ _ eq_refl).
  destruct Halloc as [[Hnull Hgrant] | Hok].
  - rewrite Hnull.
    rewrite (run_bind _ _ _ _ _ (malloc_eq _ m)), Hgrant.
    unfold set_buffer.
    rewrite (run_bind _ _ _ _ _ (run_bind get_dev _ _ _ _ eq_refl)).
    unfold put_dev. cbn [dev env].
    set (junk := (λ k, to_uint8 (heap_junk (env m) k)) <$> _).
    destruct (begin_init_total splash1 splash2
                (mkMachine (with_buffer (dev m) (Some junk))
                           (env_after (env m) 1 [])))
      as (m' & buf' & Hrun & Hdev & Hlen & Hbytes & Hheap); try done.
    { exists junk. split; [done|]. split.
      - unfold junk. by rewrite length_fmap, length_seq.
      - unfold junk. apply Forall_fmap, Forall_forall.
        intros k _. apply to_uint8_range. }
    by exists m', buf'.
  - pose proof Hok as (buf & Hbuf & _). rewrite Hbuf.
    destruct (begin_init_total splash1 splash2 m)
      as (m' & buf' & Hrun & Hdev & Hlen & Hbytes & Hheap); try done.
    by exists m', buf'.
Qed.

(** C5: when the buffer is NULL and [malloc] returns NULL, [begin] returns
    false, the object is as before, the failed [malloc] is the only heap
    request and the bus has seen no transaction.  When [malloc] succeeds, or
    the buffer was allocated before, [begin] returns true (for splash
    bitmaps that fill their tables) and the object has its buffer. *)
Theorem begin_allocation splash1 splash2 m :
  (buffer (dev m) = None →
   heap_ok (env m) (heap_calls (env m)) = false →
   ∃ m', begin splash1 splash2 m = Some (false, m') ∧
         dev m' = dev m ∧
         heap_calls (env m') = S (heap_calls (env m)) ∧
         bus (env m') = bus (env m))
  ∧
  (bitmap_ok splash1 → bitmap_ok splash2 → gfx_ok (dev m) →
   (buffer (dev m) = None ∧ heap_ok (env m) (heap_calls (env m)) = true)
     ∨ buffer_ok (dev m) →
   ∃ m', begin splash1 splash2 m = Some (true, m') ∧ buffer_ok (dev m')).
Proof.
  split.
  - intros Hnull Hrefuse. unfold begin.
    rewrite (run_bind get_dev _ _ _ _ eq_refl), Hnull.
    rewrite (run_bind _ _ _ _ _ (malloc_eq _ m)), Hrefuse.
    unfold set_buffer.
    rewrite (run_bind _ _ _ _ _ (run_bind get_dev _ _ _ _ eq_refl)).
    unfold put_dev, mret, M_ret. cbn [dev env].
    eexists. split; [reflexivity|]. cbn [dev env env_after heap_calls bus].
    split; [|split].
    + rewrite <- Hnull. destruct (dev m); reflexivity.
    + lia.
    + apply app_nil_r.
  - intros Hs1 Hs2 Hgfx Halloc.
    destruct (begin_total splash1 splash2 m Hs1 Hs2 Hgfx Halloc)
      as (m' & buf' & Hrun & Hdev & Hlen & Hbytes & _).
    exists m'. split; [done|]. exists buf'. by rewrite Hdev.
Qed.

(** Two small bitmaps standing for the splash tables, and environments whose
    heap refuses, respectively grants, every request. *)
Definition demo_splash1 : Bitmap := mkBitmap 8 2 [0xFF; 0x81].
Definition demo_splash2 : Bitmap := mkBitmap 3 1 [0xA0].
Definition exhausted_env : Env := mkEnv (λ _, false) (λ _, 0) 0 [].
Definition fresh_panel : SSD1306 := Adafruit_SSD1306 128 64 0 0.

Lemma begin_allocation_witness :
  (∃ m', begin demo_splash1 demo_splash2 (mkMachine fresh_panel exhausted_env)
           = Some (false, m') ∧
         dev m' = fresh_panel ∧
         heap_calls (env m') = 1%nat ∧
         bus (env m') = [])
  ∧
  (∃ m', begin demo_splash1 demo_splash2 (mkMachine fresh_panel demo_env)
           = Some (true, m') ∧ buffer_ok (dev m')).
Proof.
  split.
  - apply (proj1 (begin_allocation demo_splash1 demo_splash2
                    (mkMachine fresh_panel exhausted_env))); reflexivity.
  - apply (proj2 (begin_allocation demo_splash1 demo_splash2
                    (mkMachine fresh_panel demo_env))).
    + unfold bitmap_ok; simpl. repeat split; by vm_compute.
    + unfold bitmap_ok; simpl. repeat split; by vm_compute.
    + change fresh_panel with (mkSSD1306 128 64 128 64 0 None 0 0).
      unfold gfx_ok, is_uint8; simpl. lia.
    + left. split; reflexivity.
Defined.

(** ** Dimming *)

Lemma dim_issues (b : bool) m :
  heap_never_fails (env m) →
  issues (dim b) m 2
    [ cmd_transaction (i2c (dev m)) [SSD1306_SETCONTRAST];
      cmd_transaction (i2c (dev m))
        [to_uint8 (if b then 0 else contrast (dev m))] ].
Proof.
  intros Hheap. unfold dim.
  apply (issues_bind _ _ m 1 [_] 1 [_]).
  - apply (ssd1306_command1_granted SSD1306_SETCONTRAST m (Hheap _)).
  - apply issues_get_dev. cbn [dev env].
    match goal with
    | |- issues _ ?m1 _ _ => apply (ssd1306_command1_granted _ m1 (Hheap _))
    end.
Qed.

(** C7: when the heap grants the command links, [dim(true)] puts the
    set-contrast command and then the byte 0 on the bus, [dim(false)] the
    set-contrast command and then the stored [contrast] byte; neither changes
    the object.  On a 128x64 panel [begin] stores 0xCF, so that [dim(false)]
    after [begin] sends 0xCF. *)
Theorem dim_contrast splash1 splash2 m :
  heap_never_fails (env m) →
  issues (dim true) m 2
    [ cmd_transaction (i2c (dev m)) [SSD1306_SETCONTRAST];
      cmd_transaction (i2c (dev m)) [0] ] ∧
  issues (dim false) m 2
    [ cmd_transaction (i2c (dev m)) [SSD1306_SETCONTRAST];
      cmd_transaction (i2c (dev m)) [to_uint8 (contrast (dev m))] ] ∧
  (bitmap_ok splash1 → bitmap_ok splash2 → gfx_ok (dev m) →
   buffer (dev m) = None ∨ buffer_ok (dev m) →
   WIDTH (dev m) = 128 → HEIGHT (dev m) = 64 →
   ∃ m', begin splash1 splash2 m = Some (true, m') ∧
         contrast (dev m') = 0xCF ∧
         issues (dim false) m' 2
           [ cmd_transaction (i2c (dev m)) [SSD1306_SETCONTRAST];
             cmd_transaction (i2c (dev m)) [0xCF] ] ∧
         issues (dim true) m' 2
           [ cmd_transaction (i2c (dev m)) [SSD1306_SETCONTRAST];
             cmd_transaction (i2c (dev m)) [0] ]).
Proof.
  intros Hheap. split; [|split].
  - apply (dim_issues true m Hheap).
  - apply (dim_issues false m Hheap).
  - intros Hs1 Hs2 Hgfx Hbuf HW HH.
    destruct (begin_total splash1 splash2 m Hs1 Hs2 Hgfx)
      as (m' & buf' & Hrun & Hdev & _ & _ & Hheap').
    { destruct Hbuf as [Hnull | Hok]; [left | by right].
      split; [done | apply Hheap]. }
    assert (contrast (dev m') = 0xCF ∧ i2c (dev m') = i2c (dev m)) as [Hc Hport].
    { rewrite Hdev. unfold geometry_params. rewrite HW, HH. by cbn. }
    assert (heap_never_fails (env m')) as Hheap2.
    { intros n. rewrite Hheap'. apply Hheap. }
    exists m'. split; [done|]. split; [done|].
    pose proof (dim_issues false m' Hheap2) as Hbright.
    pose proof (dim_issues true m' Hheap2) as Hdim.
    rewrite Hc, Hport in Hbright. rewrite Hport in Hdim.
    split; [exact Hbright | exact Hdim].
Qed.

Lemma dim_contrast_witness :
  issues (dim true) (mkMachine fresh_panel demo_env) 2
    [ cmd_transaction 0 [SSD1306_SETCONTRAST]; cmd_transaction 0 [0] ] ∧
  issues (dim false) (mkMachine fresh_panel demo_env) 2
    [ cmd_transaction 0 [SSD1306_SETCONTRAST];
      cmd_transaction 0 [to_uint8 (contrast fresh_panel)] ] ∧
  ∃ m', begin demo_splash1 demo_splash2 (mkMachine fresh_panel demo_env)
          = Some (true, m') ∧
        contrast (dev m') = 0xCF ∧
        issues (dim false) m' 2
          [ cmd_transaction 0 [SSD1306_SETCONTRAST];
            cmd_transaction 0 [0xCF] ] ∧
        issues (dim true) m' 2
          [ cmd_transaction 0 [SSD1306_SETCONTRAST];
            cmd_transaction 0 [0] ].
Proof.
  destruct (dim_contrast demo_splash1 demo_splash2
              (mkMachine fresh_panel demo_env))
    as (Hdim & Hbright & Hbegin).
  - intros n. reflexivity.
  - split; [exact Hdim|]. split; [exact Hbright|].
    apply Hbegin.
    + unfold bitmap_ok; simpl. repeat split; by vm_compute.
    + unfold bitmap_ok; simpl. repeat split; by vm_compute.
    + change fresh_panel with (mkSSD1306 128 64 128 64 0 None 0 0).
      unfold gfx_ok, is_uint8; simpl. lia.
    + left. reflexivity.
    + reflexivity.
    + reflexivity.
Defined.

(** ** The guard [if (cmd != NULL)] at work *)

(** With a heap that refuses every command link, [display] still returns
    normally but nothing reaches the bus: this is why the statements about
    bus traffic above assume that the links are granted. *)
Example display_without_links :
  ∃ m', display (mkMachine (dev demo_machine) exhausted_env) = Some (tt, m') ∧
        dev m' = dev demo_machine ∧ bus (env m') = [].
Proof. eexists. split; [vm_compute; reflexivity|]. by split. Qed.

(** Drawing the white pixel of the scenario and reading it back. *)
Example scenario_pixel_reads_back :
  (clearDisplay ;; drawPixel 10 20 SSD1306_WHITE ;; getPixel 10 20)
    scenario_machine
  = Some (true,
          mkMachine (mkSSD1306 128 64 128 64 0
                       (Some (<[266%nat := 16]> (replicate 1024 0))) 0xCF 0)
                    demo_env).
Proof. vm_compute. reflexivity. Qed.

(** * Further properties of the driver *)

(** ** Where a pixel lives *)

(** The byte index and the bit number that [drawPixel] and [getPixel] compute
    for an in-bounds coordinate. *)
Definition pixel_slot (d : SSD1306) (x y : Z) : nat * Z :=
  let '(px, py) := rotate_coords d x y in
  (Z.to_nat (px + (py `quot` 8) * WIDTH d), Z.land py 7).

Definition in_bounds (d : SSD1306) (x y : Z) : Prop :=
  0 ≤ x < width d ∧ 0 ≤ y < height d.

Definition set_buf (m : Machine) (buf : list Z) : Machine :=
  mkMachine (with_buffer (dev m) (Some buf)) (env m).

Lemma pixel_slot_access m buf x y :
  gfx_ok (dev m) →
  buffer (dev m) = Some buf →
  length buf = Z.to_nat (buffer_size (dev m)) →
  in_bounds (dev m) x y →
  ∃ i k b,
    pixel_slot (dev m) x y = (i, k) ∧ 0 ≤ k < 8 ∧
    buf !! i = Some b ∧
    (∀ color, drawPixel x y color m =
                Some (tt, set_buf m (<[i := paint_byte color b (1 ≪ k)]> buf))) ∧
    getPixel x y m = Some (Z.testbit b k, m).
Proof.
  intros Hgfx Hbuf Hlen [Hx Hy].
  destruct (pixel_access m buf x y 0 Hgfx Hbuf Hlen Hx Hy)
    as (px & py & b & Htr & Hin & Hb & _ & Hget).
  exists (Z.to_nat (spec_byte_index (WIDTH (dev m)) px py)),
         (spec_bit_position py), b.
  split.
  { unfold pixel_slot. rewrite rotate_coords_spec, Htr by done.
    unfold spec_byte_index, spec_bit_position.
    by rewrite Z.quot_div_nonneg by lia. }
  split; [apply land_7_range|]. split; [done|]. split; [|done].
  intros color.
  destruct (pixel_access m buf x y color Hgfx Hbuf Hlen Hx Hy)
    as (px' & py' & b' & Htr' & _ & Hb' & Hdraw & _).
  rewrite Htr in Htr'. injection Htr' as <- <-.
  rewrite Hb in Hb'. injection Hb' as <-. exact Hdraw.
Qed.

Lemma spec_transform_inj d x1 y1 x2 y2 :
  gfx_ok d →
  spec_transform (WIDTH d) (HEIGHT d) (rotation d) x1 y1
    = spec_transform (WIDTH d) (HEIGHT d) (rotation d) x2 y2 →
  (x1, y1) = (x2, y2).
Proof.
  intros (_ & _ & Hrot).
  destruct Hrot as [([-> | ->] & _) | ([-> | ->] & _)]; simpl;
    intros [= H1 H2]; f_equal; lia.
Qed.

Lemma byte_bit_inj W px1 py1 px2 py2 :
  0 ≤ px1 < W → 0 ≤ px2 < W → 0 ≤ py1 → 0 ≤ py2 →
  spec_byte_index W px1 py1 = spec_byte_index W px2 py2 →
  spec_bit_position py1 = spec_bit_position py2 →
  (px1, py1) = (px2, py2).
Proof.
  unfold spec_byte_index, spec_bit_position.
  change 7 with (Z.ones 3). rewrite !Z.land_ones by lia.
  change (2 ^ 3) with 8. intros H1 H2 H3 H4 Hidx Hbit.
  assert (py1 / 8 = py2 / 8) as Hq by nia.
  assert (px1 = px2) as -> by nia.
  f_equal. rewrite (Z.div_mod py1 8), (Z.div_mod py2 8) by lia. congruence.
Qed.

Lemma pixel_slot_inj d x1 y1 x2 y2 :
  gfx_ok d → in_bounds d x1 y1 → in_bounds d x2 y2 →
  pixel_slot d x1 y1 = pixel_slot d x2 y2 →
  (x1, y1) = (x2, y2).
Proof.
  intros Hgfx [Hx1 Hy1] [Hx2 Hy2]. unfold pixel_slot.
  rewrite !rotate_coords_spec by done.
  pose proof (spec_transform_in_panel d x1 y1 Hgfx Hx1 Hy1) as Hin1.
  pose proof (spec_transform_in_panel d x2 y2 Hgfx Hx2 Hy2) as Hin2.
  destruct (spec_transform _ _ _ x1 y1) as [px1 py1] eqn:E1.
  destruct (spec_transform _ _ _ x2 y2) as [px2 py2] eqn:E2.
  rewrite !Z.quot_div_nonneg by lia.
  intros [= Hi Hk].
  apply (spec_transform_inj d); [done|]. rewrite E1, E2.
  pose proof (byte_index_in_buffer d px1 py1 (proj1 Hin1) (proj2 Hin1)).
  pose proof (byte_index_in_buffer d px2 py2 (proj1 Hin2) (proj2 Hin2)).
  apply (byte_bit_inj (WIDTH d)); try lia; try done.
  unfold spec_byte_index in *. lia.
Qed.

(** Two bytes with the same bits. *)
Lemma uint8_eq_bits a b :
  is_uint8 a → is_uint8 b →
  (∀ j, 0 ≤ j → Z.testbit a j = Z.testbit b j) → a = b.
Proof. intros _ _ H. by apply Z.bits_inj'. Qed.

Lemma paint_inverse_inverse b k :
  is_uint8 b → 0 ≤ k < 8 →
  paint_byte SSD1306_INVERSE (paint_byte SSD1306_INVERSE b (1 ≪ k)) (1 ≪ k) = b.
Proof.
  intros Hb Hk.
  apply uint8_eq_bits; [by do 2 apply paint_byte_range | done |].
  intros j Hj.
  rewrite !paint_byte_testbit by (done || lia || by apply paint_byte_range).
  repeat case_bool_decide; subst; try done.
  unfold spec_paint; simpl. apply negb_involutive.
Qed.

Lemma paint_overwrite c1 c2 b k :
  is_uint8 b → 0 ≤ k < 8 →
  c2 = SSD1306_WHITE ∨ c2 = SSD1306_BLACK →
  paint_byte c2 (paint_byte c1 b (1 ≪ k)) (1 ≪ k) = paint_byte c2 b (1 ≪ k).
Proof.
  intros Hb Hk Hc2.
  apply uint8_eq_bits; [by do 2 apply paint_byte_range
                       | by apply paint_byte_range |].
  intros j Hj.
  rewrite !paint_byte_testbit by (done || lia || by apply paint_byte_range).
  repeat case_bool_decide; subst; try done.
  destruct Hc2 as [-> | ->]; done.
Qed.

Lemma paint_commute c1 c2 b k1 k2 :
  is_uint8 b → 0 ≤ k1 < 8 → 0 ≤ k2 < 8 → k1 ≠ k2 →
  paint_byte c2 (paint_byte c1 b (1 ≪ k1)) (1 ≪ k2)
  = paint_byte c1 (paint_byte c2 b (1 ≪ k2)) (1 ≪ k1).
Proof.
  intros Hb Hk1 Hk2 Hne.
  apply uint8_eq_bits; [by do 2 apply paint_byte_range..|].
  intros j Hj.
  rewrite !paint_byte_testbit by (done || lia || by apply paint_byte_range).
  repeat case_bool_decide; subst; done.
Qed.

Ltac same_panel H :=
  match type of H with
  | pixel_slot (dev (set_buf ?m ?b)) ?x ?y = _ =>
      change (pixel_slot (dev (set_buf m b)) x y)
        with (pixel_slot (dev m) x y) in H
  end.

(** Two successive [drawPixel] calls at one in-bounds coordinate. *)
Lemma drawPixel_twice_same m buf x y c1 c2 :
  gfx_ok (dev m) →
  buffer (dev m) = Some buf →
  length buf = Z.to_nat (buffer_size (dev m)) →
  in_bounds (dev m) x y →
  ∃ i k b,
    pixel_slot (dev m) x y = (i, k) ∧ 0 ≤ k < 8 ∧ buf !! i = Some b ∧
    (drawPixel x y c1 ;; drawPixel x y c2) m =
      Some (tt, set_buf m (<[i := paint_byte c2 (paint_byte c1 b (1 ≪ k))
                                                (1 ≪ k)]> buf)).
Proof.
  intros Hgfx Hbuf Hlen Hin.
  destruct (pixel_slot_access m buf x y Hgfx Hbuf Hlen Hin)
    as (i & k & b & Hslot & Hk & Hb & Hdraw & _).
  exists i, k, b. split; [done|]. split; [done|]. split; [done|].
  rewrite (run_bind _ _ _ _ _ (Hdraw c1)).
  set (buf1 := <[i := paint_byte c1 b (1 ≪ k)]> buf).
  destruct (pixel_slot_access (set_buf m buf1) buf1 x y)
    as (i' & k' & b' & Hslot' & _ & Hb' & Hdraw' & _); try done.
  { unfold buf1. by rewrite length_insert. }
  same_panel Hslot'. rewrite Hslot in Hslot'. injection Hslot' as <- <-.
  unfold buf1 in Hb'.
  rewrite list_lookup_insert_eq in Hb' by (by eapply lookup_lt_Some).
  injection Hb' as <-.
  rewrite Hdraw'. unfold buf1, set_buf. cbn [dev env with_buffer].
  by rewrite list_insert_insert_eq.
Qed.

(** ** Pixel operations compose as one expects *)

(** X1: toggling an in-bounds pixel twice with [SSD1306_INVERSE] gives back
    the machine one started from. *)
Theorem drawPixel_inverse_twice m x y :
  gfx_ok (dev m) → buffer_ok (dev m) → in_bounds (dev m) x y →
  (drawPixel x y SSD1306_INVERSE ;; drawPixel x y SSD1306_INVERSE) m
  = Some (tt, m).
Proof.
  intros Hgfx (buf & Hbuf & Hlen & Hbytes) Hin.
  destruct (drawPixel_twice_same m buf x y SSD1306_INVERSE SSD1306_INVERSE
              Hgfx Hbuf Hlen Hin) as (i & k & b & _ & Hk & Hb & ->).
  rewrite paint_inverse_inverse by (done || by eapply Forall_lookup_1).
  rewrite list_insert_id by done. unfold set_buf.
  by rewrite with_buffer_id, machine_eta.
Qed.

Lemma drawPixel_inverse_twice_witness :
  (drawPixel 3 5 SSD1306_INVERSE ;; drawPixel 3 5 SSD1306_INVERSE) demo_machine
  = Some (tt, demo_machine).
Proof.
  apply (drawPixel_inverse_twice demo_machine 3 5).
  - unfold gfx_ok, is_uint8; simpl. lia.
  - exists (replicate 16 0). simpl. repeat split.
    repeat constructor; unfold is_uint8; lia.
  - unfold in_bounds; simpl. lia.
Defined.

(** X2: [SSD1306_INVERSE] flips what [getPixel] reads at that coordinate. *)
Theorem drawPixel_inverse_flips m x y :
  gfx_ok (dev m) → buffer_ok (dev m) → in_bounds (dev m) x y →
  ∃ v m',
    getPixel x y m = Some (v, m) ∧
    drawPixel x y SSD1306_INVERSE m = Some (tt, m') ∧
    getPixel x y m' = Some (negb v, m').
Proof.
  intros Hgfx (buf & Hbuf & Hlen & Hbytes) Hin.
  destruct (pixel_slot_access m buf x y Hgfx Hbuf Hlen Hin)
    as (i & k & b & Hslot & Hk & Hb & Hdraw & Hget).
  set (buf1 := <[i := paint_byte SSD1306_INVERSE b (1 ≪ k)]> buf).
  destruct (pixel_slot_access (set_buf m buf1) buf1 x y)
    as (i' & k' & b' & Hslot' & _ & Hb' & _ & Hget'); try done.
  { unfold buf1. by rewrite length_insert. }
  same_panel Hslot'. rewrite Hslot in Hslot'. injection Hslot' as <- <-.
  unfold buf1 in Hb'.
  rewrite list_lookup_insert_eq in Hb' by (by eapply lookup_lt_Some).
  injection Hb' as <-.
  exists (Z.testbit b k), (set_buf m buf1).
  split; [done|]. split; [apply Hdraw|].
  rewrite Hget'. do 2 f_equal.
  rewrite paint_byte_testbit by (lia || by eapply Forall_lookup_1).
  by rewrite bool_decide_eq_true_2.
Qed.

Lemma drawPixel_inverse_flips_witness :
  ∃ v m',
    getPixel 3 5 demo_machine = Some (v, demo_machine) ∧
    drawPixel 3 5 SSD1306_INVERSE demo_machine = Some (tt, m') ∧
    getPixel 3 5 m' = Some (negb v, m').
Proof.
  apply (drawPixel_inverse_flips demo_machine 3 5).
  - unfold gfx_ok, is_uint8; simpl. lia.
  - exists (replicate 16 0). simpl. repeat split.
    repeat constructor; unfold is_uint8; lia.
  - unfold in_bounds; simpl. lia.
Defined.

(** X3: the last write wins.  Drawing an in-bounds pixel with any colour and
    then white (or black) leaves the machine that drawing it white (or black)
    alone leaves; in particular drawing white twice is drawing it once. *)
Theorem drawPixel_last_write_wins m x y c1 c2 :
  gfx_ok (dev m) → buffer_ok (dev m) → in_bounds (dev m) x y →
  c2 = SSD1306_WHITE ∨ c2 = SSD1306_BLACK →
  (drawPixel x y c1 ;; drawPixel x y c2) m = drawPixel x y c2 m.
Proof.
  intros Hgfx (buf & Hbuf & Hlen & Hbytes) Hin Hc2.
  destruct (drawPixel_twice_same m buf x y c1 c2 Hgfx Hbuf Hlen Hin)
    as (i & k & b & Hslot & Hk & Hb & ->).
  destruct (pixel_slot_access m buf x y Hgfx Hbuf Hlen Hin)
    as (i' & k' & b' & Hslot' & _ & Hb' & Hdraw & _).
  rewrite Hslot in Hslot'. injection Hslot' as <- <-.
  rewrite Hb in Hb'. injection Hb' as <-.
  rewrite Hdraw.
  by rewrite paint_overwrite by (done || by eapply Forall_lookup_1).
Qed.

Lemma drawPixel_last_write_wins_witness :
  (drawPixel 3 5 SSD1306_INVERSE ;; drawPixel 3 5 SSD1306_BLACK) demo_machine
  = drawPixel 3 5 SSD1306_BLACK demo_machine.
Proof.
  apply (drawPixel_last_write_wins demo_machine 3 5).
  - unfold gfx_ok, is_uint8; simpl. lia.
  - exists (replicate 16 0). simpl. repeat split.
    repeat constructor; unfold is_uint8; lia.
  - unfold in_bounds; simpl. lia.
  - right. reflexivity.
Defined.

(** The machine after drawing at one in-bounds pixel, and the byte then found
    in the slot of another pixel. *)
Lemma drawPixel_then_slot m buf x1 y1 c1 x2 y2 :
  gfx_ok (dev m) →
  buffer (dev m) = Some buf →
  length buf = Z.to_nat (buffer_size (dev m)) →
  Forall is_uint8 buf →
  in_bounds (dev m) x1 y1 → in_bounds (dev m) x2 y2 →
  ∃ i1 k1 b1 i2 k2 b2,
    pixel_slot (dev m) x1 y1 = (i1, k1) ∧ 0 ≤ k1 < 8 ∧ buf !! i1 = Some b1 ∧
    pixel_slot (dev m) x2 y2 = (i2, k2) ∧ 0 ≤ k2 < 8 ∧ buf !! i2 = Some b2 ∧
    is_uint8 b1 ∧ is_uint8 b2 ∧
    drawPixel x1 y1 c1 m =
      Some (tt, set_buf m (<[i1 := paint_byte c1 b1 (1 ≪ k1)]> buf)) ∧
    getPixel x2 y2 m = Some (Z.testbit b2 k2, m) ∧
    (∀ c2,
       (drawPixel x1 y1 c1 ;; drawPixel x2 y2 c2) m =
         Some (tt, set_buf m
                 (<[i2 := paint_byte c2
                            (if decide (i1 = i2)
                             then paint_byte c1 b1 (1 ≪ k1) else b2)
                            (1 ≪ k2)]>
                    (<[i1 := paint_byte c1 b1 (1 ≪ k1)]> buf)))) ∧
    (drawPixel x1 y1 c1 ;; getPixel x2 y2) m =
      Some (Z.testbit (if decide (i1 = i2)
                       then paint_byte c1 b1 (1 ≪ k1) else b2) k2,
            set_buf m (<[i1 := paint_byte c1 b1 (1 ≪ k1)]> buf)).
Proof.
  intros Hgfx Hbuf Hlen Hbytes Hin1 Hin2.
  destruct (pixel_slot_access m buf x1 y1 Hgfx Hbuf Hlen Hin1)
    as (i1 & k1 & b1 & Hslot1 & Hk1 & Hb1 & Hdraw1 & _).
  destruct (pixel_slot_access m buf x2 y2 Hgfx Hbuf Hlen Hin2)
    as (i2 & k2 & b2 & Hslot2 & Hk2 & Hb2 & _ & Hget2).
  exists i1, k1, b1, i2, k2, b2.
  set (buf1 := <[i1 := paint_byte c1 b1 (1 ≪ k1)]> buf).
  destruct (pixel_slot_access (set_buf m buf1) buf1 x2 y2)
    as (i' & k' & b' & Hslot' & _ & Hb' & Hdraw' & Hget'); try done.
  { unfold buf1. by rewrite length_insert. }
  same_panel Hslot'. rewrite Hslot2 in Hslot'. injection Hslot' as <- <-.
  assert (b' = if decide (i1 = i2) then paint_byte c1 b1 (1 ≪ k1) else b2)
    as ->.
  { unfold buf1 in Hb'. case_decide as Hi.
    - subst i2.
      rewrite list_lookup_insert_eq in Hb' by (by eapply lookup_lt_Some).
      congruence.
    - rewrite list_lookup_insert_ne in Hb' by done. congruence. }
  assert (is_uint8 b1) by (by eapply Forall_lookup_1).
  assert (is_uint8 b2) by (by eapply Forall_lookup_1).
  do 10 (split; [done|]). split.
  - intros c2. rewrite (run_bind _ _ _ _ _ (Hdraw1 c1)). by rewrite Hdraw'.
  - by rewrite (run_bind _ _ _ _ _ (Hdraw1 c1)).
Qed.

(** X4: drawing at one in-bounds pixel, with any colour, does not change what
    [getPixel] reads at any other in-bounds pixel. *)
Theorem drawPixel_other_pixel_unchanged m x1 y1 x2 y2 color :
  gfx_ok (dev m) → buffer_ok (dev m) →
  in_bounds (dev m) x1 y1 → in_bounds (dev m) x2 y2 →
  (x1, y1) ≠ (x2, y2) →
  ∃ v m',
    getPixel x2 y2 m = Some (v, m) ∧
    (drawPixel x1 y1 color ;; getPixel x2 y2) m = Some (v, m').
Proof.
  intros Hgfx (buf & Hbuf & Hlen & Hbytes) Hin1 Hin2 Hne.
  destruct (drawPixel_then_slot m buf x1 y1 color x2 y2
              Hgfx Hbuf Hlen Hbytes Hin1 Hin2)
    as (i1 & k1 & b1 & i2 & k2 & b2 & Hs1 & Hk1 & Hb1 & Hs2 & Hk2 & Hb2
        & Hu1 & Hu2 & _ & Hget & _ & Hseq).
  eexists _, _. split; [exact Hget|]. rewrite Hseq. do 2 f_equal.
  case_decide as Hi; [|done]. subst i2.
  assert (b2 = b1) as -> by congruence.
  rewrite paint_byte_testbit by (done || lia).
  case_bool_decide as Hk; [|done]. subst k2.
  exfalso. apply Hne. apply (pixel_slot_inj (dev m)); try done. congruence.
Qed.

Lemma drawPixel_other_pixel_unchanged_witness :
  ∃ v m',
    getPixel 3 6 demo_machine = Some (v, demo_machine) ∧
    (drawPixel 3 5 SSD1306_WHITE ;; getPixel 3 6) demo_machine = Some (v, m').
Proof.
  apply (drawPixel_other_pixel_unchanged demo_machine 3 5 3 6 SSD1306_WHITE).
  - unfold gfx_ok, is_uint8; simpl. lia.
  - exists (replicate 16 0). simpl. repeat split.
    repeat constructor; unfold is_uint8; lia.
  - unfold in_bounds; simpl. lia.
  - unfold in_bounds; simpl. lia.
  - intros [=].
Defined.

(** X5: [drawPixel] calls at two different in-bounds pixels commute, whatever
    the two colours, also when both pixels share a buffer byte. *)
Theorem drawPixel_commute m x1 y1 c1 x2 y2 c2 :
  gfx_ok (dev m) → buffer_ok (dev m) →
  in_bounds (dev m) x1 y1 → in_bounds (dev m) x2 y2 →
  (x1, y1) ≠ (x2, y2) →
  (drawPixel x1 y1 c1 ;; drawPixel x2 y2 c2) m
  = (drawPixel x2 y2 c2 ;; drawPixel x1 y1 c1) m.
Proof.
  intros Hgfx (buf & Hbuf & Hlen & Hbytes) Hin1 Hin2 Hne.
  destruct (drawPixel_then_slot m buf x1 y1 c1 x2 y2
              Hgfx Hbuf Hlen Hbytes Hin1 Hin2)
    as (i1 & k1 & b1 & i2 & k2 & b2 & Hs1 & Hk1 & Hb1 & Hs2 & Hk2 & Hb2
        & Hu1 & Hu2 & _ & _ & H12 & _).
  destruct (drawPixel_then_slot m buf x2 y2 c2 x1 y1
              Hgfx Hbuf Hlen Hbytes Hin2 Hin1)
    as (j2 & l2 & a2 & j1 & l1 & a1 & Ht2 & _ & Ha2 & Ht1 & _ & Ha1
        & _ & _ & _ & _ & H21 & _).
  rewrite Hs2 in Ht2. injection Ht2 as <- <-.
  rewrite Hs1 in Ht1. injection Ht1 as <- <-.
  rewrite Hb2 in Ha2. injection Ha2 as <-.
  rewrite Hb1 in Ha1. injection Ha1 as <-.
  rewrite H12, H21. do 3 f_equal.
  destruct (decide (i1 = i2)) as [<- | Hi].
  - rewrite decide_True by done.
    assert (b2 = b1) as -> by congruence.
    assert (k1 ≠ k2) as Hk.
    { intros ->. apply Hne. apply (pixel_slot_inj (dev m)); try done.
      congruence. }
    rewrite !list_insert_insert_eq. f_equal.
    by apply paint_commute.
  - rewrite decide_False by done.
    by rewrite list_insert_insert_ne.
Qed.

Lemma drawPixel_commute_witness :
  (drawPixel 3 5 SSD1306_WHITE ;; drawPixel 4 5 SSD1306_INVERSE) demo_machine
  = (drawPixel 4 5 SSD1306_INVERSE ;; drawPixel 3 5 SSD1306_WHITE) demo_machine.
Proof.
  apply (drawPixel_commute demo_machine 3 5 SSD1306_WHITE 4 5 SSD1306_INVERSE).
  - unfold gfx_ok, is_uint8; simpl. lia.
  - exists (replicate 16 0). simpl. repeat split.
    repeat constructor; unfold is_uint8; lia.
  - unfold in_bounds; simpl. lia.
  - unfold in_bounds; simpl. lia.
  - intros [=].
Defined.

(** X6: [drawPixel] keeps a well-formed object well-formed.  For every
    coordinate (in bounds or not) and every colour value it returns normally,
    changes no field but the buffer, keeps the buffer's size and byte range,
    and leaves heap and bus alone. *)
Theorem drawPixel_keeps_panel m x y color :
  gfx_ok (dev m) → buffer_ok (dev m) →
  ∃ m' buf',
    drawPixel x y color m = Some (tt, m') ∧
    dev m' = with_buffer (dev m) (Some buf') ∧
    length buf' = Z.to_nat (buffer_size (dev m)) ∧
    Forall is_uint8 buf' ∧
    env m' = env m ∧
    gfx_ok (dev m') ∧ buffer_ok (dev m').
Proof.
  intros Hgfx Hok.
  destruct (drawPixel_total m x y color Hgfx Hok) as (m' & Hrun & Hrep).
  destruct (repaints_ok m m' Hgfx Hrep) as [Hgfx' Hok'].
  destruct Hrep as (buf' & -> & Hlen & Hbytes).
  by eexists _, buf'.
Qed.

Lemma drawPixel_keeps_panel_witness :
  ∃ m' buf',
    drawPixel (-7) 300 9 demo_machine = Some (tt, m') ∧
    dev m' = with_buffer (dev demo_machine) (Some buf') ∧
    length buf' = Z.to_nat (buffer_size (dev demo_machine)) ∧
    Forall is_uint8 buf' ∧
    env m' = env demo_machine ∧
    gfx_ok (dev m') ∧ buffer_ok (dev m').
Proof.
  apply (drawPixel_keeps_panel demo_machine (-7) 300 9).
  - unfold gfx_ok, is_uint8; simpl. lia.
  - exists (replicate 16 0). simpl. repeat split.
    repeat constructor; unfold is_uint8; lia.
Defined.

(** X7: for each rotation the coordinate switch is a bijection from the
    logical in-bounds rectangle onto the native panel: it lands inside the
    panel, different logical pixels get different physical pixels, and every
    physical pixel is reached. *)
Theorem rotate_coords_bijection d :
  gfx_ok d →
  (∀ x y, in_bounds d x y →
          0 ≤ (rotate_coords d x y).1 < WIDTH d ∧
          0 ≤ (rotate_coords d x y).2 < HEIGHT d) ∧
  (∀ x1 y1 x2 y2,
     in_bounds d x1 y1 → in_bounds d x2 y2 →
     rotate_coords d x1 y1 = rotate_coords d x2 y2 → (x1, y1) = (x2, y2)) ∧
  (∀ px py,
     0 ≤ px < WIDTH d → 0 ≤ py < HEIGHT d →
     ∃ x y, in_bounds d x y ∧ rotate_coords d x y = (px, py)).
Proof.
  intros Hgfx. split; [|split].
  - intros x y [Hx Hy]. rewrite rotate_coords_spec by done.
    pose proof (spec_transform_in_panel d x y Hgfx Hx Hy) as Hin.
    by destruct (spec_transform _ _ _ x y).
  - intros x1 y1 x2 y2 [Hx1 Hy1] [Hx2 Hy2].
    rewrite !rotate_coords_spec by done. by apply spec_transform_inj.
  - intros px py Hpx Hpy.
    pose proof Hgfx as (HW & HH & Hrot). unfold is_uint8 in *.
    assert (∃ x y, in_bounds d x y ∧
              spec_transform (WIDTH d) (HEIGHT d) (rotation d) x y = (px, py))
      as (x & y & Hin & Htr).
    { unfold in_bounds, width, height.
      destruct Hrot as [([Hr | Hr] & Hw & Hh) | ([Hr | Hr] & Hw & Hh)];
        rewrite Hr, Hw, Hh.
      - exists px, py. by split.
      - exists (WIDTH d - 1 - px), (HEIGHT d - 1 - py).
        split; [lia|]. simpl. f_equal; lia.
      - exists py, (WIDTH d - 1 - px).
        split; [lia|]. simpl. f_equal; lia.
      - exists (HEIGHT d - 1 - py), px.
        split; [lia|]. simpl. f_equal; lia. }
    exists x, y. split; [done|].
    destruct Hin. by rewrite rotate_coords_spec.
Qed.

Lemma rotate_coords_bijection_witness :
  (0 ≤ (rotate_coords (dev demo_machine) 3 5).1 < 16 ∧
   0 ≤ (rotate_coords (dev demo_machine) 3 5).2 < 8) ∧
  (3, 5) = (3, 5) ∧
  ∃ x y, in_bounds (dev demo_machine) x y ∧
         rotate_coords (dev demo_machine) x y = (15, 7).
Proof.
  destruct (rotate_coords_bijection (dev demo_machine)) as (Hin & Hinj & Hsur).
  - unfold gfx_ok, is_uint8; simpl. lia.
  - split; [|split].
    + apply (Hin 3 5). unfold in_bounds; simpl. lia.
    + apply (Hinj 3 5 3 5); (reflexivity || (unfold in_bounds; simpl; lia)).
    + apply (Hsur 15 7); simpl; lia.
Defined.

(** X8: rotation only changes the addressing.  Drawing (reading) the logical
    pixel [(x, y)] under the current rotation leaves the same buffer (reads the
    same value) as drawing (reading) its physical pixel after
    [setRotation(0)]. *)
Theorem rotation_only_readdresses m m0 x y px py color :
  gfx_ok (dev m) → buffer_ok (dev m) → in_bounds (dev m) x y →
  rotate_coords (dev m) x y = (px, py) →
  setRotation 0 m = Some (tt, m0) →
  ∃ m' m0' v,
    drawPixel x y color m = Some (tt, m') ∧
    drawPixel px py color m0 = Some (tt, m0') ∧
    buffer (dev m') = buffer (dev m0') ∧
    getPixel x y m = Some (v, m) ∧
    getPixel px py m0 = Some (v, m0).
Proof.
  intros Hgfx (buf & Hbuf & Hlen & Hbytes) Hin Hrot Hset.
  destruct (setRotation_gfx_ok 0 m Hgfx)
    as (d0 & Hset' & Hgfx0 & Hr0 & HW0 & HH0 & Hbuf0).
  rewrite Hset in Hset'. injection Hset' as ->.
  assert (0 ≤ px < WIDTH (dev m) ∧ 0 ≤ py < HEIGHT (dev m)) as [Hpx Hpy].
  { destruct Hin as [Hx Hy].
    pose proof (spec_transform_in_panel (dev m) x y Hgfx Hx Hy) as Hpanel.
    rewrite <- rotate_coords_spec, Hrot in Hpanel by done. exact Hpanel. }
  change (Z.land 0 3) with 0 in Hr0.
  assert (in_bounds d0 px py) as Hin0.
  { destruct Hgfx0 as (_ & _ & [(_ & Hw & Hh) | ([Hr | Hr] & _)]);
      [|congruence..].
    unfold in_bounds, width, height. rewrite Hw, Hh, HW0, HH0. lia. }
  destruct (pixel_slot_access m buf x y Hgfx Hbuf Hlen Hin)
    as (i & k & b & Hslot & Hk & Hb & Hdraw & Hget).
  destruct (pixel_slot_access (mkMachine d0 (env m)) buf px py)
    as (i0 & k0 & b0 & Hslot0 & _ & Hb0 & Hdraw0 & Hget0); try done.
  { cbn [dev]. congruence. }
  { cbn [dev]. unfold buffer_size. rewrite HW0, HH0. exact Hlen. }
  cbn [dev] in Hslot0.
  assert ((i0, k0) = (i, k)) as Heq.
  { rewrite <- Hslot0, <- Hslot. unfold pixel_slot, rotate_coords at 1.
    unfold getRotation. rewrite Hr0, Hrot, HW0. done. }
  injection Heq as -> ->. rewrite Hb in Hb0. injection Hb0 as <-.
  eexists _, _, _. split; [apply Hdraw|]. split; [apply Hdraw0|].
  split; [done|]. by split.
Qed.

Lemma rotation_only_readdresses_witness :
  ∃ m' m0' v,
    drawPixel 3 5 SSD1306_WHITE demo_machine = Some (tt, m') ∧
    drawPixel 10 3 SSD1306_WHITE
      (mkMachine (mkSSD1306 16 8 16 8 0 (Some (replicate 16 0)) 0x8F 0) demo_env)
      = Some (tt, m0') ∧
    buffer (dev m') = buffer (dev m0') ∧
    getPixel 3 5 demo_machine = Some (v, demo_machine) ∧
    getPixel 10 3
      (mkMachine (mkSSD1306 16 8 16 8 0 (Some (replicate 16 0)) 0x8F 0) demo_env)
      = Some (v, mkMachine (mkSSD1306 16 8 16 8 0 (Some (replicate 16 0)) 0x8F 0)
                           demo_env).
Proof.
  apply (rotation_only_readdresses demo_machine _ 3 5 10 3 SSD1306_WHITE).
  - unfold gfx_ok, is_uint8; simpl. lia.
  - exists (replicate 16 0). simpl. repeat split.
    repeat constructor; unfold is_uint8; lia.
  - unfold in_bounds; simpl. lia.
  - reflexivity.
  - reflexivity.
Defined.

(** X9: clearing after drawing is clearing; whatever was drawn last, the
    machine after [clearDisplay] is the one [clearDisplay] alone gives. *)
Theorem clearDisplay_erases_drawing m x y color :
  gfx_ok (dev m) → buffer_ok (dev m) →
  (drawPixel x y color ;; clearDisplay) m = clearDisplay m ∧
  (clearDisplay ;; clearDisplay) m = clearDisplay m.
Proof.
  intros Hgfx Hok. pose proof Hok as (buf & Hbuf & Hlen & _).
  rewrite (clearDisplay_ok m buf Hbuf Hlen). split.
  - destruct (drawPixel_total m x y color Hgfx Hok)
      as (m' & Hrun & buf' & -> & Hlen' & _).
    rewrite (run_bind _ _ _ _ _ Hrun).
    by rewrite (clearDisplay_ok _ buf').
  - rewrite (run_bind _ _ _ _ _ (clearDisplay_ok m buf Hbuf Hlen)).
    rewrite (clearDisplay_ok _ (replicate (Z.to_nat (buffer_size (dev m))) 0));
      [done | done | by rewrite length_replicate].
Qed.

Lemma clearDisplay_erases_drawing_witness :
  (drawPixel 3 5 SSD1306_WHITE ;; clearDisplay) demo_machine
    = clearDisplay demo_machine ∧
  (clearDisplay ;; clearDisplay) demo_machine = clearDisplay demo_machine.
Proof.
  apply (clearDisplay_erases_drawing demo_machine 3 5 SSD1306_WHITE).
  - unfold gfx_ok, is_uint8; simpl. lia.
  - exists (replicate 16 0). simpl. repeat split.
    repeat constructor; unfold is_uint8; lia.
Defined.

(** ** Bus traffic, whatever the heap does *)

(** The transaction a granted link carries, or nothing. *)
Definition if_granted (e : Env) (n : nat) (t : transaction) : list transaction :=
  if heap_ok e n then [t] else [].

Lemma command1_issues_any c m :
  issues (ssd1306_command1 c) m 1
    (if_granted (env m) (heap_calls (env m))
       (cmd_transaction (i2c (dev m)) [c mod 256])).
Proof.
  unfold if_granted.
  destruct (heap_ok (env m) (heap_calls (env m))) eqn:Hok.
  - by apply ssd1306_command1_granted.
  - by apply ssd1306_command1_refused.
Qed.

(** X10: [ssd1306_command1(c)] makes one heap request and leaves the object
    alone; when the link is granted it puts one command-stream transaction
    with the single payload byte [c mod 256] on the bus, and when the link is
    refused it puts nothing there.  The public [ssd1306_command] is the same
    function. *)
Theorem ssd1306_command1_bus c m :
  issues (ssd1306_command1 c) m 1
    (if_granted (env m) (heap_calls (env m))
       (cmd_transaction (i2c (dev m)) [c mod 256])) ∧
  ssd1306_command c m = ssd1306_command1 c m.
Proof. split; [apply command1_issues_any | done]. Qed.

Lemma commandList_granted_prefix c n m :
  0 ≤ n < 256 → (Z.to_nat n ≤ length c)%nat →
  heap_ok (env m) (heap_calls (env m)) = true →
  issues (ssd1306_commandList c n) m 1
         [cmd_transaction (i2c (dev m)) (to_uint8 <$> take (Z.to_nat n) c)].
Proof.
  intros Hn Hlen Hok.
  unfold issues, ssd1306_commandList.
  rewrite (run_bind _ _ _ _ _ (i2c_cmd_link_create_granted m Hok)).
  rewrite to_uint8_id by done.
  unfold i2c_master_start, i2c_master_write_byte, i2c_queue.
  rewrite (run_bind _ _ _ _ _ (commandList_loop_ok _ c _ _ Hlen)).
  rewrite (run_bind get_dev _ _ _ _ eq_refl).
  unfold mbind, M_bind, i2c_master_cmd_begin, get_env, put_env,
    i2c_cmd_link_delete, mret, M_ret.
  cbn [dev env]. unfold env_after, cmd_transaction, frame_ops.
  cbn [heap_ok heap_junk heap_calls bus].
  rewrite app_nil_r, <- list_fmap_compose. reflexivity.
Qed.

Lemma commandList_issues_any c n m :
  0 ≤ n < 256 → (Z.to_nat n ≤ length c)%nat →
  issues (ssd1306_commandList c n) m 1
    (if_granted (env m) (heap_calls (env m))
       (cmd_transaction (i2c (dev m)) (to_uint8 <$> take (Z.to_nat n) c))).
Proof.
  intros Hn Hlen. unfold if_granted.
  destruct (heap_ok (env m) (heap_calls (env m))) eqn:Hok.
  - by apply commandList_granted_prefix.
  - by apply ssd1306_commandList_refused.
Qed.

(** X11: [ssd1306_commandList(c, n)] with [n] no larger than the table makes
    one heap request and leaves the object alone; a granted link carries the
    first [n] bytes of the table, in order, in a single command-stream
    transaction (for [n = 0] a transaction with no payload), a refused link
    carries nothing. *)
Theorem ssd1306_commandList_bus c n m :
  0 ≤ n < 256 → (Z.to_nat n ≤ length c)%nat →
  issues (ssd1306_commandList c n) m 1
    (if_granted (env m) (heap_calls (env m))
       (cmd_transaction (i2c (dev m)) (to_uint8 <$> take (Z.to_nat n) c))).
Proof. apply commandList_issues_any. Qed.

Lemma ssd1306_commandList_bus_witness :
  issues (ssd1306_commandList [0xAE; 0xD5; 0x80] 2) demo_machine 1
    [cmd_transaction 0 [0xAE; 0xD5]] ∧
  issues (ssd1306_commandList [0xAE; 0xD5; 0x80] 0) demo_machine 1
    [cmd_transaction 0 []].
Proof.
  split.
  - apply (ssd1306_commandList_bus [0xAE; 0xD5; 0x80] 2 demo_machine);
      simpl; lia.
  - apply (ssd1306_commandList_bus [0xAE; 0xD5; 0x80] 0 demo_machine);
      simpl; lia.
Defined.

Lemma i2c_cmd_link_create_eq m :
  i2c_cmd_link_create m =
    Some (if heap_ok (env m) (heap_calls (env m)) then Some [] else None,
          mkMachine (dev m) (env_after (env m) 1 [])).
Proof.
  unfold i2c_cmd_link_create.
  by rewrite (run_bind _ _ _ _ _ (heap_request_eq m)).
Qed.

Lemma display_loop_null count : ∀ ptr m buf,
  buffer (dev m) = Some buf →
  0 ≤ ptr →
  (Z.to_nat ptr + count ≤ length buf)%nat →
  display_loop count ptr None m = Some (None, m).
Proof.
  induction count as [|count IH]; intros ptr m buf Hbuf Hptr Hlen; simpl.
  - done.
  - destruct (lookup_lt_is_Some_2 buf (Z.to_nat ptr)) as [b Hb]; [lia|].
    unfold mbind, M_bind, buffer_load, array_index. rewrite Hbuf.
    destruct (Z.leb_spec 0 ptr); [|lia]. rewrite Hb.
    apply (IH (ptr + 1) m buf); [done | lia | lia].
Qed.

Lemma display_issues_any m buf :
  gfx_ok (dev m) →
  buffer (dev m) = Some buf →
  length buf = Z.to_nat (buffer_size (dev m)) →
  Forall is_uint8 buf →
  issues display m 3
    (if_granted (env m) (heap_calls (env m))
       (cmd_transaction (i2c (dev m))
          [SSD1306_PAGEADDR; 0; 0xFF; SSD1306_COLUMNADDR; 0]) ++
     if_granted (env m) (heap_calls (env m) + 1)
       (cmd_transaction (i2c (dev m)) [to_uint8 (WIDTH (dev m) - 1)]) ++
     if_granted (env m) (heap_calls (env m) + 2)
       (data_transaction (i2c (dev m)) buf)).
Proof.
  intros (HW & HH & _) Hbuf Hlen Hbytes.
  destruct (buffer_size_range (dev m) HW HH) as (Hsize & _ & _).
  unfold issues, display.
  pose proof (commandList_issues_any dlist1 (sizeof dlist1) m
                ltac:(unfold sizeof, dlist1; simpl; lia)
                ltac:(unfold sizeof, dlist1; simpl; lia)) as Hlist.
  unfold issues in Hlist. rewrite (run_bind _ _ _ _ _ Hlist).
  rewrite (run_bind get_dev _ _ _ _ eq_refl). cbn [dev env].
  match goal with
  | |- (ssd1306_command1 ?c ≫= _) ?m1 = _ =>
      pose proof (command1_issues_any c m1) as Hcol
  end.
  unfold issues in Hcol. cbn [dev env] in Hcol.
  rewrite (run_bind _ _ _ _ _ Hcol).
  rewrite (run_bind _ _ _ _ _ (i2c_cmd_link_create_eq _)).
  cbn [dev env]. rewrite !env_after_after.
  unfold to_uint16. rewrite Z.mod_small by lia.
  cbn [env_after heap_ok heap_calls].
  replace (heap_calls (env m) + (1 + 1))%nat with (heap_calls (env m) + 2)%nat
    by lia.
  unfold if_granted. cbn [heap_ok].
  destruct (heap_ok (env m) (heap_calls (env m) + 2)) eqn:Hok3.
  - unfold i2c_master_start, i2c_master_write_byte, i2c_queue.
    match goal with
    | |- (display_loop ?n 0 (Some ?ops) ≫= _) ?m3 = _ =>
        rewrite (run_bind _ _ _ _ _
                   (display_loop_ok n 0 ops m3 buf Hbuf ltac:(lia) ltac:(lia)))
    end.
    rewrite <- Hlen, drop_0, firstn_all.
    rewrite (list_fmap_compose to_uint8 (λ b, I2C_write_byte b true)).
    rewrite uint8_fmap_id by done.
    unfold i2c_master_stop, i2c_queue, i2c_master_cmd_begin.
    rewrite (run_bind _ _ _ _ _ (run_bind get_env _ _ _ _ eq_refl)).
    unfold put_env, i2c_cmd_link_delete, mret, M_ret.
    unfold env_after, data_transaction, frame_ops.
    cbn [dev env heap_ok heap_junk heap_calls bus].
    do 4 f_equal; try lia.
    rewrite <- !app_assoc, ?app_nil_r. reflexivity.
  - unfold i2c_master_start, i2c_master_write_byte, i2c_queue.
    match goal with
    | |- (display_loop ?n 0 None ≫= _) ?m3 = _ =>
        rewrite (run_bind _ _ _ _ _
                   (display_loop_null n 0 m3 buf Hbuf ltac:(lia) ltac:(lia)))
    end.
    unfold i2c_master_stop, i2c_queue, i2c_master_cmd_begin.
    rewrite (run_bind _ _ _ _ _ eq_refl).
    unfold i2c_cmd_link_delete, mret, M_ret.
    unfold env_after. cbn [dev env heap_ok heap_junk heap_calls bus].
    do 4 f_equal; try lia.
    rewrite <- !app_assoc, ?app_nil_r. reflexivity.
Qed.

(** X12: [display] never touches the object.  On a well-formed object with an
    allocated buffer it returns normally whatever the heap does, makes
    exactly three heap requests, and the bus receives, in this order, those
    of its three transactions whose link was granted. *)
Theorem display_any_heap m buf :
  gfx_ok (dev m) →
  buffer (dev m) = Some buf →
  length buf = Z.to_nat (buffer_size (dev m)) →
  Forall is_uint8 buf →
  issues display m 3
    (if_granted (env m) (heap_calls (env m))
       (cmd_transaction (i2c (dev m))
          [SSD1306_PAGEADDR; 0; 0xFF; SSD1306_COLUMNADDR; 0]) ++
     if_granted (env m) (heap_calls (env m) + 1)
       (cmd_transaction (i2c (dev m)) [to_uint8 (WIDTH (dev m) - 1)]) ++
     if_granted (env m) (heap_calls (env m) + 2)
       (data_transaction (i2c (dev m)) buf)).
Proof. apply display_issues_any. Qed.

Lemma display_any_heap_witness :
  issues display (mkMachine (dev demo_machine) exhausted_env) 3 [] ∧
  issues display demo_machine 3
    [ cmd_transaction 0 [SSD1306_PAGEADDR; 0; 0xFF; SSD1306_COLUMNADDR; 0];
      cmd_transaction 0 [15];
      data_transaction 0 (replicate 16 0) ].
Proof.
  split.
  - apply (display_any_heap (mkMachine (dev demo_machine) exhausted_env)
             (replicate 16 0)).
    + unfold gfx_ok, is_uint8; simpl. lia.
    + reflexivity.
    + reflexivity.
    + simpl. repeat constructor; unfold is_uint8; lia.
  - apply (display_any_heap demo_machine (replicate 16 0)).
    + unfold gfx_ok, is_uint8; simpl. lia.
    + reflexivity.
    + reflexivity.
    + simpl. repeat constructor; unfold is_uint8; lia.
Defined.

(** ** Exact command sequences when the links are granted *)

Lemma issues_cons c1 c2 m t k ts :
  issues c1 m 1 [t] →
  issues c2 (mkMachine (dev m) (env_after (env m) 1 [t])) k ts →
  issues (c1 ;; c2) m (S k) (t :: ts).
Proof. apply (issues_bind c1 c2 m 1 [t] k ts). Qed.

Lemma heap_never_fails_after e k ts :
  heap_never_fails e → heap_never_fails (env_after e k ts).
Proof. intros H n. apply H. Qed.

Lemma heap_grants_after e k ts n :
  heap_never_fails e → heap_ok (env_after e k ts) n = true.
Proof. intros H. apply H. Qed.

Ltac heap_grants Hheap :=
  cbn [env];
  first [ apply heap_grants_after; repeat apply heap_never_fails_after;
          exact Hheap
        | apply Hheap ].

Ltac issue_granted Hheap :=
  match goal with
  | |- issues (ssd1306_command1 ?c) ?mm _ _ =>
      apply (ssd1306_command1_granted c mm); heap_grants Hheap
  | |- issues (ssd1306_commandList ?c _) ?mm _ _ =>
      apply (ssd1306_commandList_granted c mm); [simpl; lia | heap_grants Hheap]
  end.

Ltac issue_all Hheap :=
  cbv zeta;
  repeat first
    [ apply issues_get_dev; cbn [dev env]
    | eapply issues_cons; [issue_granted Hheap | cbn [dev env]] ];
  issue_granted Hheap.

(** X13: the horizontal scroll functions.  With the links granted,
    [startscrollright(start, stop)] puts five command transactions on the
    bus: the list (0x26, 0), [start], 0, [stop], and the list (0, 0xFF,
    activate); [startscrollleft] does the same with opcode 0x27.  [start] and
    [stop] go out as they are, reduced to a byte, without any range check. *)
Theorem startscroll_horizontal_bus m start stop :
  heap_never_fails (env m) →
  issues (startscrollright start stop) m 5
    [ cmd_transaction (i2c (dev m)) [SSD1306_RIGHT_HORIZONTAL_SCROLL; 0];
      cmd_transaction (i2c (dev m)) [to_uint8 start];
      cmd_transaction (i2c (dev m)) [0];
      cmd_transaction (i2c (dev m)) [to_uint8 stop];
      cmd_transaction (i2c (dev m)) [0; 0xFF; SSD1306_ACTIVATE_SCROLL] ] ∧
  issues (startscrollleft start stop) m 5
    [ cmd_transaction (i2c (dev m)) [SSD1306_LEFT_HORIZONTAL_SCROLL; 0];
      cmd_transaction (i2c (dev m)) [to_uint8 start];
      cmd_transaction (i2c (dev m)) [0];
      cmd_transaction (i2c (dev m)) [to_uint8 stop];
      cmd_transaction (i2c (dev m)) [0; 0xFF; SSD1306_ACTIVATE_SCROLL] ].
Proof.
  intros Hheap. split.
  - unfold startscrollright. issue_all Hheap.
  - unfold startscrollleft. issue_all Hheap.
Qed.

Lemma startscroll_horizontal_bus_witness :
  issues (startscrollright 0 0x0F) demo_machine 5
    [ cmd_transaction 0 [0x26; 0]; cmd_transaction 0 [0];
      cmd_transaction 0 [0]; cmd_transaction 0 [0x0F];
      cmd_transaction 0 [0; 0xFF; 0x2F] ] ∧
  issues (startscrollleft 0 0x10F) demo_machine 5
    [ cmd_transaction 0 [0x27; 0]; cmd_transaction 0 [0];
      cmd_transaction 0 [0]; cmd_transaction 0 [0x0F];
      cmd_transaction 0 [0; 0xFF; 0x2F] ].
Proof.
  destruct (startscroll_horizontal_bus demo_machine 0 0x0F) as [Hr _].
  { intros n. reflexivity. }
  destruct (startscroll_horizontal_bus demo_machine 0 0x10F) as [_ Hl].
  { intros n. reflexivity. }
  split; [exact Hr | exact Hl].
Defined.

(** X14: the diagonal scroll functions.  With the links granted,
    [startscrolldiagright(start, stop)] puts seven command transactions on
    the bus: the vertical scroll area (0xA3, 0) followed by the native
    [HEIGHT], then (0x29, 0), [start], 0, [stop], and (1, activate);
    [startscrolldiagleft] does the same with opcode 0x2A. *)
Theorem startscroll_diagonal_bus m start stop :
  heap_never_fails (env m) →
  issues (startscrolldiagright start stop) m 7
    [ cmd_transaction (i2c (dev m)) [SSD1306_SET_VERTICAL_SCROLL_AREA; 0];
      cmd_transaction (i2c (dev m)) [to_uint8 (HEIGHT (dev m))];
      cmd_transaction (i2c (dev m))
        [SSD1306_VERTICAL_AND_RIGHT_HORIZONTAL_SCROLL; 0];
      cmd_transaction (i2c (dev m)) [to_uint8 start];
      cmd_transaction (i2c (dev m)) [0];
      cmd_transaction (i2c (dev m)) [to_uint8 stop];
      cmd_transaction (i2c (dev m)) [1; SSD1306_ACTIVATE_SCROLL] ] ∧
  issues (startscrolldiagleft start stop) m 7
    [ cmd_transaction (i2c (dev m)) [SSD1306_SET_VERTICAL_SCROLL_AREA; 0];
      cmd_transaction (i2c (dev m)) [to_uint8 (HEIGHT (dev m))];
      cmd_transaction (i2c (dev m))
        [SSD1306_VERTICAL_AND_LEFT_HORIZONTAL_SCROLL; 0];
      cmd_transaction (i2c (dev m)) [to_uint8 start];
      cmd_transaction (i2c (dev m)) [0];
      cmd_transaction (i2c (dev m)) [to_uint8 stop];
      cmd_transaction (i2c (dev m)) [1; SSD1306_ACTIVATE_SCROLL] ].
Proof.
  intros Hheap. split.
  - unfold startscrolldiagright. issue_all Hheap.
  - unfold startscrolldiagleft. issue_all Hheap.
Qed.

Lemma startscroll_diagonal_bus_witness :
  issues (startscrolldiagright 0 0x0F) demo_machine 7
    [ cmd_transaction 0 [0xA3; 0]; cmd_transaction 0 [8];
      cmd_transaction 0 [0x29; 0]; cmd_transaction 0 [0];
      cmd_transaction 0 [0]; cmd_transaction 0 [0x0F];
      cmd_transaction 0 [1; 0x2F] ] ∧
  issues (startscrolldiagleft 0 0x0F) demo_machine 7
    [ cmd_transaction 0 [0xA3; 0]; cmd_transaction 0 [8];
      cmd_transaction 0 [0x2A; 0]; cmd_transaction 0 [0];
      cmd_transaction 0 [0]; cmd_transaction 0 [0x0F];
      cmd_transaction 0 [1; 0x2F] ].
Proof.
  apply (startscroll_diagonal_bus demo_machine 0 0x0F).
  intros n. reflexivity.
Defined.

(** ** The initialisation sequence *)

Lemma geometry_params_bytes d :
  is_uint8 (geometry_params d).1 ∧ is_uint8 (geometry_params d).2.
Proof.
  unfold geometry_params, is_uint8.
  repeat case_match; simpl; lia.
Qed.

Lemma run_cons {A} (c1 : M unit) (c2 : M A) m t r :
  issues c1 m 1 [t] →
  c2 (mkMachine (dev m) (env_after (env m) 1 [t])) = r →
  (c1 ;; c2) m = r.
Proof. intros H <-. exact (run_bind _ _ _ _ _ H). Qed.

Ltac run_granted Hheap :=
  eapply run_cons;
  [ match goal with
    | |- issues (ssd1306_command1 ?c) ?mm _ _ =>
        apply (ssd1306_command1_granted c mm); heap_grants Hheap
    | |- issues (ssd1306_commandList ?c _) ?mm _ _ =>
        apply (ssd1306_commandList_granted c mm);
        [simpl; lia | heap_grants Hheap]
    end
  | cbn [dev env] ].

(** The twelve transactions of [begin], for the port, the native height and
    the two geometry parameters. *)
Definition init_sequence (port height comPins level : Z) : list transaction :=
  [ cmd_transaction port init1;
    cmd_transaction port [to_uint8 (height - 1)];
    cmd_transaction port init2;
    cmd_transaction port [0x14];
    cmd_transaction port init3;
    cmd_transaction port [SSD1306_SETCOMPINS];
    cmd_transaction port [comPins];
    cmd_transaction port [SSD1306_SETCONTRAST];
    cmd_transaction port [level];
    cmd_transaction port [SSD1306_SETPRECHARGE];
    cmd_transaction port [0xF1];
    cmd_transaction port init5 ].

Lemma begin_init_trace splash1 splash2 m :
  bitmap_ok splash1 → bitmap_ok splash2 →
  gfx_ok (dev m) → buffer_ok (dev m) →
  heap_never_fails (env m) →
  ∃ buf',
    begin_init splash1 splash2 m =
      Some (true,
            mkMachine
              (with_contrast (with_buffer (dev m) (Some buf'))
                 (geometry_params (dev m)).2)
              (env_after (env m) 12
                 (init_sequence (i2c (dev m)) (HEIGHT (dev m))
                    (geometry_params (dev m)).1 (geometry_params (dev m)).2))) ∧
    length buf' = Z.to_nat (buffer_size (dev m)) ∧
    Forall is_uint8 buf'.
Proof.
  intros Hs1 Hs2 Hgfx Hok Hheap. pose proof Hok as (buf & Hbuf & Hlen & _).
  unfold begin_init.
  rewrite (run_bind _ _ _ _ _ (clearDisplay_ok m buf Hbuf Hlen)).
  rewrite (run_bind get_dev _ _ _ _ eq_refl). cbn [dev env].
  set (m1 := mkMachine (with_buffer (dev m)
               (Some (replicate (Z.to_nat (buffer_size (dev m))) 0))) (env m)).
  assert (repaints m m1) as Hrep1.
  { eexists. split; [done|]. split; [by rewrite length_replicate|].
    apply Forall_replicate. unfold is_uint8. lia. }
  destruct (repaints_ok m m1 Hgfx Hrep1) as [Hgfx1 Hok1].
  match goal with
  | |- context [ (?splash ≫= ?f) m1 ] =>
      assert (∃ m2, splash m1 = Some (tt, m2) ∧ repaints m1 m2)
        as (m2 & Hsplash & Hrep2)
  end.
  { destruct (32 <? _); by apply drawBitmap_total. }
  rewrite (run_bind _ _ _ _ _ Hsplash).
  pose proof (repaints_trans _ _ _ Hrep1 Hrep2) as (buf2 & -> & Hlen2 & Hbytes2).
  cbn [dev env].
  exists buf2. split; [|done].
  set (d2 := with_buffer (dev m) (Some buf2)).
  assert (i2c d2 = i2c (dev m) ∧ HEIGHT d2 = HEIGHT (dev m) ∧
          geometry_params d2 = geometry_params (dev m)) as (Hport & Hheight & Hgeo)
    by done.
  change (HEIGHT (dev m)) with (HEIGHT d2).
  change (geometry_params (dev m)) with (geometry_params d2).
  replace (geometry_params (with_buffer (dev m) (Some (replicate _ 0))))
    with (geometry_params d2) by done.
  change (i2c (dev m)) with (i2c d2).
  destruct (geometry_params_bytes d2) as [HcomPins Hlevel].
  destruct (geometry_params d2) as [comPins level]. cbn [fst snd] in *.
  do 5 run_granted Hheap.
  unfold set_contrast at 1.
  rewrite (run_bind _ _ _ _ _ (run_bind get_dev _ _ _ _ eq_refl)).
  unfold put_dev. cbn [dev env].
  rewrite (to_uint8_id level) by done.
  set (d3 := with_contrast d2 level).
  change (i2c d2) with (i2c d3).
  do 3 run_granted Hheap.
  rewrite (run_bind get_dev _ _ _ _ eq_refl). cbn [dev env].
  change (contrast d3) with level.
  do 4 run_granted Hheap.
  unfold mret, M_ret.
  rewrite !env_after_after.
  rewrite (to_uint8_id comPins), (to_uint8_id level) by done.
  reflexivity.
Qed.

(** X15: the command sequence of [begin].  On a well-formed object whose
    links are all granted, [begin] returns true, stores the contrast chosen
    by the geometry lookup, and puts exactly the twelve command transactions
    of the init sequence on the bus, with multiplex ratio [HEIGHT - 1] and
    the COM-pin and contrast bytes of the lookup.  It makes thirteen heap
    requests when it has to allocate the buffer and twelve when the buffer
    is already there: a second [begin] never allocates again. *)
Theorem begin_command_sequence splash1 splash2 m :
  bitmap_ok splash1 → bitmap_ok splash2 →
  gfx_ok (dev m) →
  buffer (dev m) = None ∨ buffer_ok (dev m) →
  heap_never_fails (env m) →
  ∃ m' buf',
    begin splash1 splash2 m = Some (true, m') ∧
    dev m' = with_contrast (with_buffer (dev m) (Some buf'))
               (geometry_params (dev m)).2 ∧
    length buf' = Z.to_nat (buffer_size (dev m)) ∧
    heap_calls (env m') =
      (heap_calls (env m) + if buffer (dev m) is None then 13 else 12)%nat ∧
    bus (env m') =
      bus (env m) ++
      init_sequence (i2c (dev m)) (HEIGHT (dev m))
        (geometry_params (dev m)).1 (geometry_params (dev m)).2.
Proof.
  intros Hs1 Hs2 Hgfx Halloc Hheap. unfold begin.
  rewrite (run_bind get_dev _ _ _ _ eq_refl).
  destruct Halloc as [Hnull | Hok].
  - rewrite Hnull.
    rewrite (run_bind _ _ _ _ _ (malloc_eq _ m)), (Hheap _).
    unfold set_buffer.
    rewrite (run_bind _ _ _ _ _ (run_bind get_dev _ _ _ _ eq_refl)).
    unfold put_dev. cbn [dev env].
    set (junk := (λ k, to_uint8 (heap_junk (env m) k)) <$> _).
    destruct (begin_init_trace splash1 splash2
                (mkMachine (with_buffer (dev m) (Some junk))
                           (env_after (env m) 1 [])))
      as (buf' & Hrun & Hlen & Hbytes); try done.
    { exists junk. split; [done|]. split.
      - unfold junk. by rewrite length_fmap, length_seq.
      - unfold junk. apply Forall_fmap, Forall_forall.
        intros k _. apply to_uint8_range. }
    eexists _, buf'. split; [exact Hrun|].
    cbn [dev env]. rewrite env_after_after.
    cbn [env_after heap_calls bus app]. split; [done|]. split; [done|].
    split; [lia | done].
  - pose proof Hok as (buf & Hbuf & _). rewrite Hbuf.
    destruct (begin_init_trace splash1 splash2 m)
      as (buf' & Hrun & Hlen & Hbytes); try done.
    eexists _, buf'. split; [exact Hrun|]. by cbn [dev env].
Qed.

Lemma begin_command_sequence_witness :
  ∃ m' buf',
    begin demo_splash1 demo_splash2 (mkMachine fresh_panel demo_env)
      = Some (true, m') ∧
    dev m' = with_contrast (with_buffer fresh_panel (Some buf')) 0xCF ∧
    length buf' = 1024%nat ∧
    heap_calls (env m') = 13%nat ∧
    bus (env m') = init_sequence 0 64 0x12 0xCF.
Proof.
  apply (begin_command_sequence demo_splash1 demo_splash2
           (mkMachine fresh_panel demo_env)).
  - unfold bitmap_ok; simpl. repeat split; by vm_compute.
  - unfold bitmap_ok; simpl. repeat split; by vm_compute.
  - change fresh_panel with (mkSSD1306 128 64 128 64 0 None 0 0).
    unfold gfx_ok, is_uint8; simpl. lia.
  - left. reflexivity.
  - intros n. reflexivity.
Defined.

(** X16: the life cycle.  An object made by the constructor has its
    dimensions reduced modulo 256, rotation 0 and no buffer; once the
    [malloc] of [begin] is granted, [begin] returns true and the object is
    well-formed, with a buffer of [WIDTH * ((HEIGHT + 7) / 8)] bytes, whether
    or not any command link is granted afterwards. *)
Theorem constructor_then_begin splash1 splash2 w h port junk e :
  bitmap_ok splash1 → bitmap_ok splash2 →
  heap_ok e (heap_calls e) = true →
  buffer (Adafruit_SSD1306 w h port junk) = None ∧
  ∃ m',
    begin splash1 splash2 (mkMachine (Adafruit_SSD1306 w h port junk) e)
      = Some (true, m') ∧
    gfx_ok (dev m') ∧ buffer_ok (dev m') ∧
    WIDTH (dev m') = w `mod` 256 ∧ HEIGHT (dev m') = h `mod` 256 ∧
    width (dev m') = w `mod` 256 ∧ height (dev m') = h `mod` 256 ∧
    getRotation (dev m') = 0 ∧ i2c (dev m') = port.
Proof.
  intros Hs1 Hs2 Hgrant. split; [done|].
  pose proof (constructor_gfx_ok w h port junk) as Hgfx.
  destruct (begin_total splash1 splash2
              (mkMachine (Adafruit_SSD1306 w h port junk) e) Hs1 Hs2 Hgfx)
    as (m' & buf' & Hrun & Hdev & Hlen & Hbytes & _).
  { left. by split. }
  exists m'. split; [done|]. rewrite Hdev. cbn [dev].
  split; [done|]. split; [by exists buf'|]. done.
Qed.

Lemma constructor_then_begin_witness :
  buffer (Adafruit_SSD1306 384 64 1 0) = None ∧
  ∃ m',
    begin demo_splash1 demo_splash2
      (mkMachine (Adafruit_SSD1306 384 64 1 0) demo_env) = Some (true, m') ∧
    gfx_ok (dev m') ∧ buffer_ok (dev m') ∧
    WIDTH (dev m') = 384 `mod` 256 ∧ HEIGHT (dev m') = 64 `mod` 256 ∧
    width (dev m') = 384 `mod` 256 ∧ height (dev m') = 64 `mod` 256 ∧
    getRotation (dev m') = 0 ∧ i2c (dev m') = 1.
Proof.
  apply (constructor_then_begin demo_splash1 demo_splash2 384 64 1 0 demo_env).
  - unfold bitmap_ok; simpl. repeat split; by vm_compute.
  - unfold bitmap_ok; simpl. repeat split; by vm_compute.
  - reflexivity.
Defined.

(** X17: before [begin] the buffer is NULL, and the drawing functions
    dereference it: [clearDisplay], [getPixel] at an in-bounds coordinate and
    [drawPixel] at an in-bounds coordinate with one of the three colours have
    no defined result. *)
Theorem null_buffer_is_dereferenced m x y color :
  buffer (dev m) = None →
  in_bounds (dev m) x y →
  color = SSD1306_WHITE ∨ color = SSD1306_BLACK ∨ color = SSD1306_INVERSE →
  clearDisplay m = None ∧
  getPixel x y m = None ∧
  drawPixel x y color m = None.
Proof.
  intros Hnull [Hx Hy] Hcolor.
  assert (∀ i, buffer_load i m = None) as Hload.
  { intros i. unfold buffer_load, array_index. by rewrite Hnull. }
  split; [|split].
  - unfold clearDisplay. by rewrite Hnull.
  - unfold getPixel, mbind, M_bind, get_dev.
    replace (_ && _ && _ && _) with true
      by (symmetry; rewrite !andb_true_iff; lia).
    destruct (rotate_coords (dev m) x y) as [px py]. by rewrite Hload.
  - unfold drawPixel, mbind, M_bind, get_dev.
    replace (_ && _ && _ && _) with true
      by (symmetry; rewrite !andb_true_iff; lia).
    destruct (rotate_coords (dev m) x y) as [px py].
    destruct Hcolor as [-> | [-> | ->]]; simpl; by rewrite Hload.
Qed.

Lemma null_buffer_is_dereferenced_witness :
  clearDisplay (mkMachine fresh_panel demo_env) = None ∧
  getPixel 0 0 (mkMachine fresh_panel demo_env) = None ∧
  drawPixel 0 0 SSD1306_WHITE (mkMachine fresh_panel demo_env) = None.
Proof.
  apply (null_buffer_is_dereferenced (mkMachine fresh_panel demo_env) 0 0
           SSD1306_WHITE).
  - reflexivity.
  - unfold in_bounds. change fresh_panel with (mkSSD1306 128 64 128 64 0 None 0 0).
    simpl. lia.
  - left. reflexivity.
Defined.

(** X18: what is drawn is what is sent.  After [drawPixel] at an in-bounds
    coordinate, [display] (links granted) sends the two addressing commands
    and one data transaction carrying the buffer as [drawPixel] left it, so
    that for white the bit of the drawn pixel is set in the bytes sent. *)
Theorem display_sends_drawing m x y :
  gfx_ok (dev m) → buffer_ok (dev m) → in_bounds (dev m) x y →
  heap_never_fails (env m) →
  ∃ m' i k sent,
    (drawPixel x y SSD1306_WHITE ;; display) m = Some (tt, m') ∧
    pixel_slot (dev m) x y = (i, k) ∧
    buffer (dev m') = Some sent ∧
    Z.testbit (sent !!! i) k = true ∧
    bus (env m') =
      bus (env m) ++
      [ cmd_transaction (i2c (dev m))
          [SSD1306_PAGEADDR; 0; 0xFF; SSD1306_COLUMNADDR; 0];
        cmd_transaction (i2c (dev m)) [to_uint8 (WIDTH (dev m) - 1)];
        data_transaction (i2c (dev m)) sent ].
Proof.
  intros Hgfx (buf & Hbuf & Hlen & Hbytes) Hin Hheap.
  destruct (pixel_slot_access m buf x y Hgfx Hbuf Hlen Hin)
    as (i & k & b & Hslot & Hk & Hb & Hdraw & _).
  assert (is_uint8 b) as Hbyte by (by eapply Forall_lookup_1).
  set (sent := <[i := paint_byte SSD1306_WHITE b (1 ≪ k)]> buf).
  pose proof (display_issues_any (set_buf m sent) sent) as Hdisp.
  unfold issues in Hdisp. cbn [dev env set_buf] in Hdisp.
  unfold if_granted in Hdisp. rewrite !Hheap in Hdisp.
  eexists _, i, k, sent.
  rewrite (run_bind _ _ _ _ _ (Hdraw SSD1306_WHITE)).
  split.
  { apply Hdisp; try done.
    - unfold sent. by rewrite length_insert.
    - unfold sent. apply Forall_insert; [done|]. by apply paint_byte_range. }
  cbn [dev env]. split; [done|]. split; [done|]. split; [|done].
  unfold sent.
  rewrite list_lookup_total_insert_eq by (by eapply lookup_lt_Some).
  rewrite paint_byte_testbit by (done || lia).
  by rewrite bool_decide_eq_true_2.
Qed.

Lemma display_sends_drawing_witness :
  ∃ m' i k sent,
    (drawPixel 3 5 SSD1306_WHITE ;; display) demo_machine = Some (tt, m') ∧
    pixel_slot (dev demo_machine) 3 5 = (i, k) ∧
    buffer (dev m') = Some sent ∧
    Z.testbit (sent !!! i) k = true ∧
    bus (env m') =
      [ cmd_transaction 0 [SSD1306_PAGEADDR; 0; 0xFF; SSD1306_COLUMNADDR; 0];
        cmd_transaction 0 [15];
        data_transaction 0 sent ].
Proof.
  apply (display_sends_drawing demo_machine 3 5).
  - unfold gfx_ok, is_uint8; simpl. lia.
  - exists (replicate 16 0). simpl. repeat split.
    repeat constructor; unfold is_uint8; lia.
  - unfold in_bounds; simpl. lia.
  - intros n. reflexivity.
Defined.

(** X19: on a well-formed object [getPixel] is defined at every coordinate,
    in bounds or not, and returns the machine exactly as it found it. *)
Theorem getPixel_reads_only m x y :
  gfx_ok (dev m) → buffer_ok (dev m) →
  ∃ v, getPixel x y m = Some (v, m).
Proof.
  intros Hgfx (buf & Hbuf & Hlen & _).
  destruct (decide (in_bounds (dev m) x y)) as [Hin | Hout].
  - destruct (pixel_slot_access m buf x y Hgfx Hbuf Hlen Hin)
      as (i & k & b & _ & _ & _ & _ & Hget).
    by eexists.
  - exists false. unfold getPixel, mbind, M_bind, get_dev.
    replace (_ && _ && _ && _) with false; [done|].
    symmetry. apply not_true_is_false. rewrite !andb_true_iff.
    unfold in_bounds in Hout. lia.
Qed.

Lemma getPixel_reads_only_witness :
  ∃ v, getPixel (-1) 40000 demo_machine = Some (v, demo_machine).
Proof.
  apply (getPixel_reads_only demo_machine (-1) 40000).
  - unfold gfx_ok, is_uint8; simpl. lia.
  - exists (replicate 16 0). simpl. repeat split.
    repeat constructor; unfold is_uint8; lia.
Defined.

(** X20: the contrast [begin] stores depends on the geometry only: 0xCF for a
    128x64 panel, 0xAF for 96x16, and 0x8F for every other size, the
    unrecognised ones included; this holds whether or not the command links
    are granted. *)
Theorem begin_contrast_by_geometry splash1 splash2 m :
  bitmap_ok splash1 → bitmap_ok splash2 →
  gfx_ok (dev m) →
  (buffer (dev m) = None ∧ heap_ok (env m) (heap_calls (env m)) = true)
    ∨ buffer_ok (dev m) →
  ∃ m',
    begin splash1 splash2 m = Some (true, m') ∧
    contrast (dev m') =
      if (WIDTH (dev m) =? 128) && (HEIGHT (dev m) =? 64) then 0xCF
      else if (WIDTH (dev m) =? 96) && (HEIGHT (dev m) =? 16) then 0xAF
      else 0x8F.
Proof.
  intros Hs1 Hs2 Hgfx Halloc.
  destruct (begin_total splash1 splash2 m Hs1 Hs2 Hgfx Halloc)
    as (m' & buf' & Hrun & Hdev & _).
  exists m'. split; [done|]. rewrite Hdev. cbn [contrast with_contrast].
  unfold geometry_params.
  destruct (Z.eqb_spec (WIDTH (dev m)) 128) as [HW|HW];
    destruct (Z.eqb_spec (HEIGHT (dev m)) 32) as [HH|HH];
    destruct (Z.eqb_spec (HEIGHT (dev m)) 64);
    destruct (Z.eqb_spec (WIDTH (dev m)) 96);
    destruct (Z.eqb_spec (HEIGHT (dev m)) 16); try lia; reflexivity.
Qed.

(** A heap that grants the first request only. *)
Definition exhausted_env_after_malloc : Env :=
  mkEnv (λ n, match n with O => true | S _ => false end) (λ _, 0) 0 [].

Lemma begin_contrast_by_geometry_witness :
  ∃ m',
    begin demo_splash1 demo_splash2
      (mkMachine (Adafruit_SSD1306 96 16 0 0) exhausted_env_after_malloc)
      = Some (true, m') ∧
    contrast (dev m') = 0xAF.
Proof.
  apply (begin_contrast_by_geometry demo_splash1 demo_splash2
           (mkMachine (Adafruit_SSD1306 96 16 0 0) exhausted_env_after_malloc)).
  - unfold bitmap_ok; simpl. repeat split; by vm_compute.
  - unfold bitmap_ok; simpl. repeat split; by vm_compute.
  - change (Adafruit_SSD1306 96 16 0 0) with (mkSSD1306 96 16 96 16 0 None 0 0).
    unfold gfx_ok, is_uint8; simpl. lia.
  - left. split; reflexivity.
Defined.
